(** * Taurus Selenium helpers ([bzt/resources/selenium_extras.py])

    A shallow embedding of the helper classes that generated Taurus test
    scripts call: [_get_timeout], [FrameManager], [WindowManager],
    [Manager.get_locator], [WaitForManager] and [DialogsManager].

    The WebDriver client (Selenium) is an external library.  Its calls
    are taken as the operations of an interface, [WebDriver], over an
    abstract browser state; every Python function is written once,
    against that interface.  A small concrete browser, [Mock], inhabits
    the interface so that the functions can be run on examples.

    Conventions.
    - Python strings are [string]s; the model covers ASCII text.
    - [time.time()] and the timeouts are integers (clock ticks).
    - A Python call either returns or raises, and the changes it made to
      the driver before raising stay: a computation has type
      [S -> result A * S]. *)

From Stdlib Require Import ZArith List Ascii String Bool Lia.
From stdpp Require Import base option list strings gmap pretty.

Local Open Scope Z_scope.
Local Open Scope string_scope.

(** ** Python values, exceptions and string methods *)

Module Py.

(** The values the thread store may hold under the key ["timeout"]. *)
#[warnings="-register-all"]
Inductive value :=
| None_
| Bool (b : bool)
| Int (n : Z)
| Str (s : string)
| List (l : list value).

(** Truth value testing: [None], [False], zero, and empty sequences are
    false. *)
Definition truthy (v : value) : bool :=
  match v with
  | None_ => false
  | Bool b => b
  | Int n => negb (n =? 0)%Z
  | Str s => negb (String.eqb s "")
  | List l => match l with [] => false | _ :: _ => true end
  end.

(** [v == 0]: numbers compare by value and [False == 0] holds. *)
Definition eq_zero (v : value) : bool :=
  match v with
  | Int n => (n =? 0)%Z
  | Bool b => negb b
  | _ => false
  end.

(** The exceptions that occur in the module: four from Selenium, the
    built-in ones raised by indexing, dictionary lookup, [int()] and
    [%]-formatting, and Selenium's JavascriptException. *)
Inductive exn :=
| NoSuchWindowException (msg : string)
| NoSuchFrameException (msg : string)
| NoSuchElementException (msg : string)
| TimeoutException (msg : string)
| JavascriptException (msg : string)
| KeyError (key : string)
| IndexError
| ValueError
| TypeError.

Inductive result (A : Type) :=
| Ok (a : A)
| Raise (e : exn).
Arguments Ok {A} a.
Arguments Raise {A} e.

(** *** [str] methods *)

Definition lower_ascii (c : ascii) : ascii :=
  let n := nat_of_ascii c in
  if (Nat.leb 65 n && Nat.leb n 90)%bool then ascii_of_nat (n + 32) else c.

Fixpoint lower (s : string) : string :=
  match s with
  | EmptyString => EmptyString
  | String c r => String (lower_ascii c) (lower r)
  end.

Definition startswith (s p : string) : bool := String.prefix p s.

Definition is_digit (c : ascii) : bool :=
  let n := nat_of_ascii c in (Nat.leb 48 n && Nat.leb n 57)%bool.

Fixpoint all_digits (s : string) : bool :=
  match s with
  | EmptyString => true
  | String c r => is_digit c && all_digits r
  end.

(** [s.isdigit()]: at least one character and all of them digits. *)
Definition isdigit (s : string) : bool :=
  match s with
  | EmptyString => false
  | _ => all_digits s
  end.

(** [s.split(sep)] for a one-character separator. *)
Fixpoint split (sep : ascii) (s : string) : list string :=
  match s with
  | EmptyString => [EmptyString]
  | String c r =>
      if Ascii.eqb c sep then EmptyString :: split sep r
      else match split sep r with
           | [] => [String c EmptyString]
           | w :: ws => String c w :: ws
           end
  end.

(** [sub in s]. *)
Fixpoint contains (sub s : string) : bool :=
  String.prefix sub s ||
  match s with
  | EmptyString => false
  | String _ r => contains sub r
  end.

(** [x in l] for a list of strings. *)
Definition mem (x : string) (l : list string) : bool :=
  existsb (String.eqb x) l.

(** *** [int(s)] *)

(** The whitespace that [int] skips around the number: tab, line feed,
    vertical tab, form feed, carriage return and space. *)
Definition is_space (c : ascii) : bool :=
  let n := nat_of_ascii c in
  ((Nat.leb 9 n && Nat.leb n 13) || Nat.eqb n 32)%bool.

Fixpoint lstrip (s : string) : string :=
  match s with
  | String c r => if is_space c then lstrip r else s
  | EmptyString => EmptyString
  end.

Fixpoint rstrip (s : string) : string :=
  match s with
  | EmptyString => EmptyString
  | String c r =>
      match rstrip r with
      | EmptyString => if is_space c then EmptyString else String c EmptyString
      | r' => String c r'
      end
  end.

Definition strip (s : string) : string := rstrip (lstrip s).

(** Digits with single underscores between them, read left to right;
    [prev] tells whether the previous character was a digit. *)
Fixpoint digits_value (s : string) (prev : bool) (acc : Z) : option Z :=
  match s with
  | EmptyString => if prev then Some acc else None
  | String c r =>
      if is_digit c
      then digits_value r true (10 * acc + Z.of_nat (nat_of_ascii c - 48))
      else if (Ascii.eqb c "_" && prev)%bool
      then digits_value r false acc
      else None
  end.

Fixpoint count_digits (s : string) : nat :=
  match s with
  | EmptyString => O
  | String c r => ((if is_digit c then 1 else 0) + count_digits r)%nat
  end.

(** [sys.int_max_str_digits], at its default. *)
Definition max_str_digits : nat := 4300.

(** [int(s)] in base ten: surrounding whitespace, an optional sign, then
    digits, no more of them than [max_str_digits].  [None] stands for
    [ValueError]. *)
Definition int (s : string) : option Z :=
  let text := strip s in
  if (max_str_digits <? count_digits text)%nat then None
  else
    match text with
    | String "-" r => Z.opp <$> digits_value r false 0
    | String "+" r => digits_value r false 0
    | r => digits_value r false 0
    end.

(** [str(n)] for an integer. *)
Definition str_of_int (n : Z) : string := pretty n.

(** [l[i]]: a negative index counts from the end; [None] stands for
    [IndexError]. *)
Definition index {A} (l : list A) (i : Z) : option A :=
  let n := Z.of_nat (length l) in
  if (0 <=? i)%Z then (if (i <? n)%Z then nth_error l (Z.to_nat i) else None)
  else (if (- n <=? i)%Z then nth_error l (Z.to_nat (n + i)) else None).

(** [str(x)] for an optional string argument ([None] prints as "None"). *)
Definition str_of_opt (x : option string) : string :=
  match x with
  | None => "None"
  | Some s => s
  end.

End Py.

Import Py.

(** ** The WebDriver client

    Selenium is not part of the repository.  The calls the helpers make
    are the fields of [WebDriver]; [D] is the state of the browser
    session, clock included. *)

(** [selenium.webdriver.common.by.By]: the locator strategies are plain
    strings. *)
Module By.
Definition XPATH : string := "xpath".
Definition CSS_SELECTOR : string := "css selector".
Definition NAME : string := "name".
Definition ID : string := "id".
Definition LINK_TEXT : string := "link text".
End By.

Record WebElement := {
  element_id : string;
  is_displayed : bool;
  is_enabled : bool
}.

(** [selenium.webdriver.support.expected_conditions], the three that
    [_get_until_cond] builds, each on a locator tuple. *)
Inductive econd :=
| element_to_be_clickable (loc : string * string)
| presence_of_element_located (loc : string * string)
| visibility_of_element_located (loc : string * string).

(** The argument of [switch_to.frame]: an integer or a string. *)
Inductive frame_reference :=
| FrameIndex (i : Z)
| FrameName (name : string).

Class WebDriver (D : Type) := {
  (** [time.time()]: the clock of the world the session lives in *)
  time : D -> Z;
  (** the implicit wait the session is set to *)
  implicit_wait : D -> Py.value;
  implicitly_wait : Py.value -> D -> D;
  find_elements : string -> string -> D -> list WebElement * D;
  window_handles : D -> list string;
  switch_to_window : string -> D -> result unit * D;
  switch_to_default_content : D -> result unit * D;
  switch_to_frame : frame_reference -> D -> result unit * D;
  switch_to_parent_frame : D -> result unit * D;
  (** [WebDriverWait(driver, timeout).until(cond)]: the element, or
      [None] for [TimeoutException] *)
  until : Z -> econd -> D -> option WebElement * D;
  (** [WebDriverWait(driver, timeout).until_not(cond, message)]:
      [false] for [TimeoutException(message)] *)
  until_not : Z -> econd -> D -> bool * D
}.

(** The thread store of apiritif, as far as the module reads it. *)
Record ThreadStore (D : Type) := {
  driver : D;
  timeout : Py.value
}.
Arguments driver {D} _.
Arguments timeout {D} _.

Definition set_driver {D} (store : ThreadStore D) (d : D) : ThreadStore D :=
  {| driver := d; timeout := timeout store |}.

Definition _get_driver {D} (store : ThreadStore D) : D := driver store.

(** ** [_get_timeout] *)

Definition _get_timeout {D} (store : ThreadStore D) : Py.value :=
  let timeout := timeout store in
  if negb (truthy timeout || eq_zero timeout) then Int 30 else timeout.

(** ** [FrameManager] *)

Module FrameManager.
Section FrameManager.
Context {D : Type} `{WebDriver D}.

Record t := { driver : D }.

Definition switch (frame_name : option string) (self : t) : result unit * t :=
  let '(r, d) :=
    match frame_name with
    | None => switch_to_default_content (driver self)
    | Some name =>
        if (String.eqb name "" || String.eqb name "relative=top")%bool
        then switch_to_default_content (driver self)
        else if startswith name "index="
        then
          match Py.index (Py.split "=" name) 1 with
          | None => (Raise IndexError, driver self)
          | Some s =>
              match Py.int s with
              | None => (Raise ValueError, driver self)
              | Some i => switch_to_frame (FrameIndex i) (driver self)
              end
          end
        else if String.eqb name "relative=parent"
        then switch_to_parent_frame (driver self)
        else switch_to_frame (FrameName name) (driver self)
    end
  in
  match r with
  | Raise (NoSuchFrameException _) =>
      (Raise (NoSuchFrameException ("Invalid Frame ID: " ++ str_of_opt frame_name)),
       {| driver := d |})
  | _ => (r, {| driver := d |})
  end.

End FrameManager.
End FrameManager.

(** ** [WindowManager] *)

Module WindowManager.
Section WindowManager.
Context {D : Type} `{WebDriver D}.

Record t := {
  driver : D;
  windows : gmap string string
}.

Definition set_driver (self : t) (d : D) : t :=
  {| driver := d; windows := windows self |}.

(** [self.driver.switch_to.window(handle)] *)
Definition switch_to (handle : string) (self : t) : result unit * t :=
  let '(r, d) := switch_to_window handle (driver self) in (r, set_driver self d).

Definition _switch_by_idx (win_index : Z) (self : t) : result unit * t :=
  let wnd_handlers := window_handles (driver self) in
  if ((Z.of_nat (length wnd_handlers) <=? win_index)%Z && (win_index >=? 0)%Z)%bool
  then
    match Py.index wnd_handlers win_index with
    | None => (Raise IndexError, self)
    | Some h => switch_to h self
    end
  else (Raise (NoSuchWindowException ("Invalid Window ID: " ++ str_of_int win_index)), self).

Definition _switch_by_win_ser (window_name : string) (self : t) : result unit * t :=
  if String.eqb window_name "win_ser_local"
  then
    let wnd_handlers := window_handles (driver self) in
    if (Z.of_nat (length wnd_handlers) >? 0)%Z
    then
      match Py.index wnd_handlers 0 with
      | None => (Raise IndexError, self)
      | Some h => switch_to h self
      end
    else (Raise (NoSuchWindowException ("Invalid Window ID: " ++ window_name)), self)
  else
    let '(r, self1) :=
      match windows self !! window_name with
      | None =>
          match Py.index (window_handles (driver self)) (-1) with
          | None => (Raise IndexError, self)
          | Some last =>
              (Ok tt, {| driver := driver self;
                         windows := <[window_name := last]> (windows self) |})
          end
      | Some _ => (Ok tt, self)
      end in
    match r with
    | Raise e => (Raise e, self1)
    | Ok _ =>
        match windows self1 !! window_name with
        | None => (Raise (KeyError window_name), self1)
        | Some h => switch_to h self1
        end
    end.

Definition switch (window_name : option string) (self : t) : result unit * t :=
  let '(r, self') :=
    match window_name with
    | Some (String _ _ as name) =>
        if isdigit name
        then
          match Py.int name with
          | None => (Raise ValueError, self)
          | Some i => _switch_by_idx i self
          end
        else if startswith name "win_ser_"
        then _switch_by_win_ser name self
        else switch_to name self
    | _ =>
        match Py.index (window_handles (driver self)) (-1) with
        | None => (Raise IndexError, self)
        | Some last => switch_to last self
        end
    end
  in
  match r with
  | Raise (NoSuchWindowException _) =>
      (Raise (NoSuchWindowException ("Invalid Window ID: " ++ str_of_opt window_name)), self')
  | _ => (r, self')
  end.

End WindowManager.
End WindowManager.

(** ** [Manager] *)

(** A locator is a dictionary, [{'id': 'elem_id'}]: its items in
    insertion order, with distinct keys. *)
Definition locator := list (string * string).

Module Manager.
Section Manager.
Context {D : Type} `{WebDriver D}.

Definition BYS : gmap string string :=
  <["xpath" := By.XPATH]> (
  <["css" := By.CSS_SELECTOR]> (
  <["name" := By.NAME]> (
  <["id" := By.ID]> (
  <["linktext" := By.LINK_TEXT]> ∅)))).

(** [locator[key]] *)
Definition getitem (loc : locator) (key : string) : option string :=
  snd <$> find (fun kv => String.eqb (fst kv) key) loc.

(** The [for] loop of [get_locator], from the iteration on [locators]
    with [first_locator] as it stands.  It ends with [Ok (Some l)] at
    the [break], where [l] is the tuple the loop stored in [locator],
    and with [Ok None] when the list is used up, next to the last value
    of [first_locator]. *)
Fixpoint for_locators (locators : list locator) (first_locator : option (string * string))
    (d : D) : result (option (string * string) * option (string * string)) * D :=
  match locators with
  | [] => (Ok (None, first_locator), d)
  | locator :: rest =>
      match locator with
      | [] => (Raise IndexError, d)
      | (locator_type, _) :: _ =>
          match getitem locator locator_type with
          | None => (Raise (KeyError locator_type), d)
          | Some locator_value =>
              let '(r, first_locator, d) :=
                match first_locator with
                | None =>
                    match BYS !! lower locator_type with
                    | None => (Raise (KeyError (lower locator_type)), first_locator, d)
                    | Some by_ => (Ok tt, Some (by_, locator_value), d)
                    end
                | Some _ => (Ok tt, first_locator, implicitly_wait (Int 0) d)
                end in
              match r with
              | Raise e => (Raise e, d)
              | Ok _ =>
                  match BYS !! lower locator_type with
                  | None => (Raise (KeyError (lower locator_type)), d)
                  | Some by_ =>
                      let '(elements, d) := find_elements by_ locator_value d in
                      if (Z.of_nat (length elements) >? 0)%Z
                      then (Ok (Some (by_, locator_value), first_locator), d)
                      else for_locators rest first_locator d
                  end
              end
          end
      end
  end.

Definition get_locator (locators : list locator) (ignore_implicit_wait : bool)
    (store : ThreadStore D) : result (string * string) * ThreadStore D :=
  let driver := _get_driver store in
  let timeout := _get_timeout store in
  let first_locator : option (string * string) := None in
  let driver := if ignore_implicit_wait then implicitly_wait (Int 0) driver else driver in
  match for_locators locators first_locator driver with
  | (Raise e, driver) => (Raise e, set_driver store driver)
  | (Ok (None, first_locator), driver) =>
      let driver := implicitly_wait timeout driver in
      match first_locator with
      | None => (Raise TypeError, set_driver store driver)
      | Some (by_, value) =>
          let msg := "Element not found: (" ++ by_ ++ ", " ++ value ++ ")" in
          (Raise (NoSuchElementException msg), set_driver store driver)
      end
  | (Ok (Some locator, _), driver) =>
      (* restore the implicit wait value *)
      let driver := implicitly_wait timeout driver in
      (Ok locator, set_driver store driver)
  end.

End Manager.
End Manager.

(** ** [WaitForManager]

    [self.driver] is the driver of the thread store: the generated
    scripts build the manager from the object they put into the store,
    and [self.loc_mngr.get_locator] reads it back from there. *)

Module WaitForManager.
Section WaitForManager.
Context {D : Type} `{WebDriver D}.

Definition POSITIVE_CONDS : list string := ["present"; "visible"; "clickable"].

Definition NEGATIVE_CONDS : list string := ["notpresent"; "notvisible"; "notclickable"].

(** [None] is Python's [None], returned when no [if] applies. *)
Definition _get_until_cond (condition : string) (locator : string * string) : option econd :=
  let loc_tuple := (fst locator, snd locator) in
  if contains "clickable" condition then Some (element_to_be_clickable loc_tuple)
  else if contains "present" condition then Some (presence_of_element_located loc_tuple)
  else if contains "visible" condition then Some (visibility_of_element_located loc_tuple)
  else None.

(** One pass through the body of the [while True] loop, up to the
    [return]: [Ok true] when the pass returns, [Ok false] when it goes
    on to read the clock. *)
Definition positive_pass (condition : string) (locators : list locator) (wait_timeout : Z)
    (store : ThreadStore D) : result bool * ThreadStore D :=
  match Manager.get_locator locators true store with
  | (Raise (NoSuchElementException _), store) => (Ok false, store)
  | (Raise e, store) => (Raise e, store)
  | (Ok locator, store) =>
      match _get_until_cond condition locator with
      | None => (Raise TypeError, store)
      | Some cond =>
          let '(element, d) := until wait_timeout cond (driver store) in
          (Ok (bool_decide (is_Some element)), set_driver store d)
      end
  end.

(** The [while True] loop; [fuel] bounds the number of passes and [None]
    means that it ran out. *)
Fixpoint while_true (fuel : nat) (condition : string) (locators : list locator)
    (wait_timeout start_time : Z) (store : ThreadStore D)
    : option (result unit * ThreadStore D) :=
  match fuel with
  | O => None
  | S fuel =>
      match positive_pass condition locators wait_timeout store with
      | (Raise e, store) => Some (Raise e, store)
      | (Ok true, store) => Some (Ok tt, store)
      | (Ok false, store) =>
          let elapsed_time := time (driver store) - start_time in
          if elapsed_time >? wait_timeout
          then Some (Raise (NoSuchElementException
                 ("Timeout occurred while waiting for '" ++ condition ++ "' condition")),
                     store)
          else while_true fuel condition locators wait_timeout start_time store
      end
  end.

Definition _wait_for_positive (fuel : nat) (condition : string) (locators : list locator)
    (wait_timeout : Z) (store : ThreadStore D) : option (result unit * ThreadStore D) :=
  let start_time := time (driver store) in
  while_true fuel condition locators wait_timeout start_time store.

(** The first loop of [_wait_for_negative], appending to [present_locs]. *)
Fixpoint for_locators (locators : list locator) (present_locs : list (string * string))
    (store : ThreadStore D) : result (list (string * string)) * ThreadStore D :=
  match locators with
  | [] => (Ok present_locs, store)
  | locator :: rest =>
      match Manager.get_locator [locator] true store with
      | (Ok l, store) => for_locators rest (present_locs ++ [l]) store
      | (Raise (NoSuchElementException _), store) => for_locators rest present_locs store
      | (Raise e, store) => (Raise e, store)
      end
  end.

(** The second loop of [_wait_for_negative]. *)
Fixpoint for_present_locs (present_locs : list (string * string)) (condition : string)
    (wait_timeout start_time : Z) (store : ThreadStore D) : result unit * ThreadStore D :=
  match present_locs with
  | [] => (Ok tt, store)
  | locator :: rest =>
      let elapsed_time := time (driver store) - start_time in
      let timeout := wait_timeout - elapsed_time in
      let message := "Timeout occurred while waiting for element (" ++ fst locator ++ "="
                     ++ snd locator ++ ") to become '" ++ condition ++ "'" in
      match _get_until_cond condition locator with
      | None => (Raise TypeError, store)
      | Some cond =>
          match until_not timeout cond (driver store) with
          | (false, d) => (Raise (TimeoutException message), set_driver store d)
          | (true, d) =>
              for_present_locs rest condition wait_timeout start_time (set_driver store d)
          end
      end
  end.

Definition _wait_for_negative (condition : string) (locators : list locator)
    (wait_timeout : Z) (store : ThreadStore D) : result unit * ThreadStore D :=
  match for_locators locators [] store with
  | (Raise e, store) => (Raise e, store)
  | (Ok present_locs, store) =>
      match present_locs with
      | [] => (Ok tt, store)
      | _ :: _ =>
          let start_time := time (driver store) in
          for_present_locs present_locs condition wait_timeout start_time store
      end
  end.

Definition wait_for (fuel : nat) (condition : string) (locators : list locator)
    (wait_timeout : Z) (store : ThreadStore D) : option (result unit * ThreadStore D) :=
  if mem (lower condition) POSITIVE_CONDS
  then _wait_for_positive fuel (lower condition) locators wait_timeout store
  else if mem (lower condition) NEGATIVE_CONDS
  then Some (_wait_for_negative (lower condition) locators wait_timeout store)
  else Some (Ok tt, store).

End WaitForManager.
End WaitForManager.

(** ** [DialogsManager]

    The scripts passed to [execute_script] run against the [window]
    object of the page the driver shows; they are embedded as functions
    on the properties of [window] that they read and write. *)

Module JS.

Inductive value :=
| undefined
| null
| Bool (b : bool)
| Num (n : Z)
| Str (s : string).

(** ToBoolean *)
Definition truthy (v : value) : bool :=
  match v with
  | undefined | null => false
  | Bool b => b
  | Num n => negb (n =? 0)%Z
  | Str s => negb (String.eqb s "")
  end.

(** [a || b] *)
Definition or (a b : value) : value := if truthy a then a else b.

(** [Array.prototype.shift]: the first entry, [undefined] on an empty
    array, and the array that is left. *)
Definition shift (a : list value) : value * list value :=
  match a with
  | [] => (undefined, [])
  | x :: r => (x, r)
  end.

(** [s.replace(/\n/g, ' ')] *)
Fixpoint replace_newlines (s : string) : string :=
  match s with
  | EmptyString => EmptyString
  | String c r =>
      String (if Ascii.eqb c "010" then " "%char else c) (replace_newlines r)
  end.

(** What [execute_script] hands back to Python for a JavaScript value:
    both [undefined] and [null] become [None]. *)
Definition to_python (v : value) : Py.value :=
  match v with
  | undefined | null => Py.None_
  | Bool b => Py.Bool b
  | Num n => Py.Int n
  | Str s => Py.Str s
  end.

(** Which function [window.alert] (or [confirm], [prompt]) is. *)
Inductive dialog_function :=
| Native
| Replaced.

(** A property that holds an array, or is not defined. *)
Record window := {
  __webdriverAlerts : option (list value);
  __webdriverConfirms : option (list value);
  __webdriverNextConfirm : value;
  __webdriverPrompts : option (list value);
  __webdriverNextPrompts : value;
  __webdriverNextPrompt : value;
  alert : dialog_function;
  confirm : dialog_function;
  prompt : dialog_function
}.

(** The [window] of a page on load. *)
Definition fresh : window := {|
  __webdriverAlerts := None;
  __webdriverConfirms := None;
  __webdriverNextConfirm := undefined;
  __webdriverPrompts := None;
  __webdriverNextPrompts := undefined;
  __webdriverNextPrompt := undefined;
  alert := Native;
  confirm := Native;
  prompt := Native
|}.

End JS.

Module DialogsManager.
Import JS.

Record t := { is_active : bool }.

(** The script of [replace_dialogs]. *)
Definition replace_dialogs_script (w : window) : value * window :=
  if bool_decide (is_Some (__webdriverAlerts w)) then (undefined, w)
  else
    (undefined,
     {| __webdriverAlerts := Some [];
        alert := Replaced;
        __webdriverConfirms := Some [];
        __webdriverNextConfirm := Bool true;
        confirm := Replaced;
        __webdriverPrompts := Some [];
        __webdriverNextPrompts := Bool true;
        prompt := Replaced;
        __webdriverNextPrompt := __webdriverNextPrompt w |}).

Definition replace_dialogs (self : t) (w : window) : Py.value * window :=
  if negb (is_active self)
  then (Py.None_, w)  (* don't replace dialogs in case DialogsManager is not activated *)
  else
    let '(_, w) := replace_dialogs_script w in (Py.None_, w).

Definition set_confirms (w : window) (q : list value) : window :=
  {| __webdriverAlerts := __webdriverAlerts w;
     __webdriverConfirms := Some q;
     __webdriverNextConfirm := __webdriverNextConfirm w;
     __webdriverPrompts := __webdriverPrompts w;
     __webdriverNextPrompts := __webdriverNextPrompts w;
     __webdriverNextPrompt := __webdriverNextPrompt w;
     alert := alert w; confirm := confirm w; prompt := prompt w |}.

Definition set_alerts (w : window) (q : list value) : window :=
  {| __webdriverAlerts := Some q;
     __webdriverConfirms := __webdriverConfirms w;
     __webdriverNextConfirm := __webdriverNextConfirm w;
     __webdriverPrompts := __webdriverPrompts w;
     __webdriverNextPrompts := __webdriverNextPrompts w;
     __webdriverNextPrompt := __webdriverNextPrompt w;
     alert := alert w; confirm := confirm w; prompt := prompt w |}.

Definition set_prompts (w : window) (q : list value) : window :=
  {| __webdriverAlerts := __webdriverAlerts w;
     __webdriverConfirms := __webdriverConfirms w;
     __webdriverNextConfirm := __webdriverNextConfirm w;
     __webdriverPrompts := Some q;
     __webdriverNextPrompts := __webdriverNextPrompts w;
     __webdriverNextPrompt := __webdriverNextPrompt w;
     alert := alert w; confirm := confirm w; prompt := prompt w |}.

Definition set_next_confirm (w : window) (v : value) : window :=
  {| __webdriverAlerts := __webdriverAlerts w;
     __webdriverConfirms := __webdriverConfirms w;
     __webdriverNextConfirm := v;
     __webdriverPrompts := __webdriverPrompts w;
     __webdriverNextPrompts := __webdriverNextPrompts w;
     __webdriverNextPrompt := __webdriverNextPrompt w;
     alert := alert w; confirm := confirm w; prompt := prompt w |}.

Definition set_next_prompt (w : window) (v : value) : window :=
  {| __webdriverAlerts := __webdriverAlerts w;
     __webdriverConfirms := __webdriverConfirms w;
     __webdriverNextConfirm := __webdriverNextConfirm w;
     __webdriverPrompts := __webdriverPrompts w;
     __webdriverNextPrompts := __webdriverNextPrompts w;
     __webdriverNextPrompt := v;
     alert := alert w; confirm := confirm w; prompt := prompt w |}.

Definition get_next_confirm (w : window) : result Py.value * window :=
  match __webdriverConfirms w with
  | None => (Ok (to_python null), w)
  | Some q =>
      let '(x, q) := shift q in
      (Ok (to_python x), set_confirms w q)
  end.

Definition get_next_alert (w : window) : result Py.value * window :=
  match __webdriverAlerts w with
  | None => (Ok (to_python null), w)
  | Some q =>
      let '(t, q) := shift q in
      let w := set_alerts w q in
      if truthy t
      then
        match t with
        | Str s => (Ok (to_python (Str (replace_newlines s))), w)
        | _ => (Raise (JavascriptException "t.replace is not a function"), w)
        end
      else (Ok (to_python t), w)
  end.

Definition get_next_prompt (w : window) : result Py.value * window :=
  match __webdriverPrompts w with
  | None => (Ok (to_python null), w)
  | Some q =>
      let '(x, q) := shift q in
      (Ok (to_python x), set_prompts w q)
  end.

(** *** The page side

    The three functions that the script of [replace_dialogs] installs as
    [window.alert], [window.confirm] and [window.prompt].  A call gives
    the value the page receives, or [None] when [push] fails because the
    array is not there. *)

Definition replaced_alert (msg : value) (w : window) : option value * window :=
  match __webdriverAlerts w with
  | None => (None, w)
  | Some q => (Some undefined, set_alerts w (q ++ [msg]))
  end.

Definition replaced_confirm (msg : value) (w : window) : option value * window :=
  match __webdriverConfirms w with
  | None => (None, w)
  | Some q =>
      let w := set_confirms w (q ++ [msg]) in
      let res := __webdriverNextConfirm w in
      (Some res, set_next_confirm w (Bool true))
  end.

Definition replaced_prompt (msg def : value) (w : window) : option value * window :=
  match __webdriverPrompts w with
  | None => (None, w)
  | Some q =>
      let w := set_prompts w (q ++ [or msg def]) in
      let res := __webdriverNextPrompt w in
      (Some res, set_next_prompt w (Bool true))
  end.

(** The dialogs a page raises. *)
Inductive dialog :=
| Alert (msg : value)
| Confirm (msg : value)
| Prompt (msg def : value).

(** The page calls [window.alert(msg)] and the like: a native dialog is
    the browser's and leaves the properties of [window] alone. *)
Definition raise_dialog (w : window) (x : dialog) : window :=
  match x with
  | Alert msg =>
      match alert w with Native => w | Replaced => snd (replaced_alert msg w) end
  | Confirm msg =>
      match confirm w with Native => w | Replaced => snd (replaced_confirm msg w) end
  | Prompt msg def =>
      match prompt w with Native => w | Replaced => snd (replaced_prompt msg def w) end
  end.

Definition raise_dialogs (xs : list dialog) (w : window) : window :=
  fold_left raise_dialog xs w.

(** The messages of each kind among the dialogs raised, oldest first, as
    the replaced functions record them. *)
Definition alerts_of (xs : list dialog) : list value :=
  omap (fun x => match x with Alert msg => Some msg | _ => None end) xs.

Definition confirms_of (xs : list dialog) : list value :=
  omap (fun x => match x with Confirm msg => Some msg | _ => None end) xs.

Definition prompts_of (xs : list dialog) : list value :=
  omap (fun x => match x with Prompt msg def => Some (or msg def) | _ => None end) xs.

(** The three functions are replaced and the arrays hold [qa], [qc] and
    [qp]. *)
Definition replaced_with (w : window) (qa qc qp : list value) : Prop :=
  alert w = Replaced /\ confirm w = Replaced /\ prompt w = Replaced
  /\ __webdriverAlerts w = Some qa
  /\ __webdriverConfirms w = Some qc
  /\ __webdriverPrompts w = Some qp.

End DialogsManager.

(** ** A concrete browser

    A page that does not change: [dom] lists the elements each locator
    finds.  A call takes one tick of the clock; a search that finds
    nothing takes the implicit wait on top, and a wait that times out its
    timeout. *)

Module Mock.

Record browser := {
  clock : Z;
  implicit : Py.value;
  dom : list ((string * string) * list WebElement);
  handles : list string;
  current_window : option string;
  frames : list string;
  frame_path : list frame_reference
}.

Definition tick (n : Z) (b : browser) : browser :=
  {| clock := clock b + n; implicit := implicit b; dom := dom b; handles := handles b;
     current_window := current_window b; frames := frames b; frame_path := frame_path b |}.

Definition set_implicit (v : Py.value) (b : browser) : browser :=
  {| clock := clock b; implicit := v; dom := dom b; handles := handles b;
     current_window := current_window b; frames := frames b; frame_path := frame_path b |}.

Definition set_window (h : string) (b : browser) : browser :=
  {| clock := clock b; implicit := implicit b; dom := dom b; handles := handles b;
     current_window := Some h; frames := frames b; frame_path := [] |}.

Definition set_frame_path (p : list frame_reference) (b : browser) : browser :=
  {| clock := clock b; implicit := implicit b; dom := dom b; handles := handles b;
     current_window := current_window b; frames := frames b; frame_path := p |}.

Definition elements_at (b : browser) (by_ value : string) : list WebElement :=
  default [] (snd <$> find (fun e => (String.eqb (fst (fst e)) by_
                                      && String.eqb (snd (fst e)) value)%bool) (dom b)).

Definition implicit_ticks (b : browser) : Z :=
  match implicit b with
  | Py.Int n => Z.max 0 n
  | _ => 0
  end.

Definition find (by_ value : string) (b : browser) : list WebElement * browser :=
  match elements_at b by_ value with
  | [] => ([], tick (1 + implicit_ticks b) b)
  | es => (es, tick 1 b)
  end.

(** What an expected condition evaluates to on the page. *)
Definition holds (c : econd) (b : browser) : option WebElement :=
  match c with
  | presence_of_element_located (by_, v) => head (elements_at b by_ v)
  | visibility_of_element_located (by_, v) =>
      match head (elements_at b by_ v) with
      | Some e => if is_displayed e then Some e else None
      | None => None
      end
  | element_to_be_clickable (by_, v) =>
      match head (elements_at b by_ v) with
      | Some e => if (is_displayed e && is_enabled e)%bool then Some e else None
      | None => None
      end
  end.

Definition wait_until (t : Z) (c : econd) (b : browser) : option WebElement * browser :=
  match holds c b with
  | Some e => (Some e, tick 1 b)
  | None => (None, tick (1 + Z.max 0 t) b)
  end.

Definition wait_until_not (t : Z) (c : econd) (b : browser) : bool * browser :=
  match holds c b with
  | None => (true, tick 1 b)
  | Some _ => (false, tick (1 + Z.max 0 t) b)
  end.

Definition to_window (h : string) (b : browser) : result unit * browser :=
  if mem h (handles b) then (Ok tt, set_window h (tick 1 b))
  else (Raise (NoSuchWindowException h), tick 1 b).

Definition to_frame (r : frame_reference) (b : browser) : result unit * browser :=
  let known :=
    match r with
    | FrameIndex i => ((0 <=? i)%Z && (i <? Z.of_nat (length (frames b)))%Z)%bool
    | FrameName n => mem n (frames b)
    end in
  if known then (Ok tt, set_frame_path (r :: frame_path b) (tick 1 b))
  else (Raise (NoSuchFrameException
                 match r with FrameIndex i => str_of_int i | FrameName n => n end),
        tick 1 b).

#[global] Instance web_driver : WebDriver browser := {|
  time := clock;
  implicit_wait := implicit;
  implicitly_wait := set_implicit;
  find_elements := find;
  window_handles := handles;
  switch_to_window := to_window;
  switch_to_default_content b := (Ok tt, set_frame_path [] (tick 1 b));
  switch_to_frame := to_frame;
  switch_to_parent_frame b := (Ok tt, set_frame_path (tail (frame_path b)) (tick 1 b));
  until := wait_until;
  until_not := wait_until_not
|}.

End Mock.

(** ** Notions the statements use *)

Section Notions.
Context {D : Type} `{WebDriver D}.

(** A stored timeout is unset when it is [None] or an empty value. *)
Definition unset (v : Py.value) : bool :=
  match v with
  | Py.None_ | Py.Str "" | Py.List [] => true
  | _ => false
  end.

(** The locator type of a dictionary is its first key; it is recognized
    when [BYS] has it, whatever its case. *)
Definition recognized (loc : locator) : bool :=
  match loc with
  | [] => false
  | (locator_type, _) :: _ => bool_decide (is_Some (Manager.BYS !! lower locator_type))
  end.

(** The tuple [(By, value)] that [get_locator] makes of a locator. *)
Definition as_tuple (loc : locator) : option (string * string) :=
  match loc with
  | [] => None
  | (locator_type, locator_value) :: _ =>
      (fun by_ => (by_, locator_value)) <$> Manager.BYS !! lower locator_type
  end.

(** A locator matches when the page, [page by value] being the elements
    a search finds, has an element for its tuple. *)
Definition matches (page : string -> string -> list WebElement) (loc : locator) : bool :=
  match as_tuple loc with
  | None => false
  | Some (by_, value) => match page by_ value with [] => false | _ :: _ => true end
  end.

(** What [first_locator] holds once the loop of [get_locator] has gone
    through [locators], having started from [first_locator]. *)
Definition first_locator_after (first_locator : option (string * string))
    (locators : list locator) : option (string * string) :=
  match first_locator with
  | Some t => Some t
  | None => head locators ≫= as_tuple
  end.

(** [page_of d] is the page the browser shows in state [d], as the
    elements each search finds there; searching and setting the implicit
    wait do not change it. *)
Definition shows_page (page_of : D -> string -> string -> list WebElement) : Prop :=
  (forall by_ value d, fst (find_elements by_ value d) = page_of d by_ value)
  /\ (forall by_ value d, page_of (snd (find_elements by_ value d)) = page_of d)
  /\ (forall v d, page_of (implicitly_wait v d) = page_of d).

Definition not_found_message (t : string * string) : string :=
  "Element not found: (" ++ fst t ++ ", " ++ snd t ++ ")".

(** Time passes: a search takes at least one tick of the clock, and
    neither setting the implicit wait nor waiting for a condition sets
    the clock back. *)
Definition clock_advances : Prop :=
  (forall by_ value d, time d < time (snd (find_elements by_ value d)))
  /\ (forall v d, time d <= time (implicitly_wait v d))
  /\ (forall t c d, time d <= time (snd (until t c d))).

(** *** The polling of [_wait_for_positive], pass by pass *)

Definition timeout_message (condition : string) : string :=
  "Timeout occurred while waiting for '" ++ condition ++ "' condition".

(** A pass from [s] to [s'] meets the condition: [get_locator] returns a
    locator and the wait on it, of up to [wait_timeout], gives an
    element. *)
Definition pass_met (condition : string) (locators : list locator) (wait_timeout : Z)
    (s s' : ThreadStore D) : Prop :=
  exists loc s1 c e d,
    Manager.get_locator locators true s = (Ok loc, s1)
    /\ WaitForManager._get_until_cond condition loc = Some c
    /\ until wait_timeout c (driver s1) = (Some e, d)
    /\ s' = set_driver s1 d.

(** A pass that does not: no locator matches an element, or the wait on
    the locator that [get_locator] returns times out. *)
Definition pass_not_met (condition : string) (locators : list locator) (wait_timeout : Z)
    (s s' : ThreadStore D) : Prop :=
  (exists msg,
      Manager.get_locator locators true s = (Raise (NoSuchElementException msg), s'))
  \/ (exists loc s1 c d,
        Manager.get_locator locators true s = (Ok loc, s1)
        /\ WaitForManager._get_until_cond condition loc = Some c
        /\ until wait_timeout c (driver s1) = (None, d)
        /\ s' = set_driver s1 d).

(** [polls n s r]: polling from [s] ends after [n] passes with [r].  It
    returns at the first pass that meets the condition; after a pass
    that does not, it raises when more than [wait_timeout] has elapsed
    since [start_time] and polls again otherwise. *)
Inductive polls (condition : string) (locators : list locator)
    (wait_timeout start_time : Z)
    : nat -> ThreadStore D -> result unit * ThreadStore D -> Prop :=
| polls_met s s' :
    pass_met condition locators wait_timeout s s' ->
    polls condition locators wait_timeout start_time 1 s (Ok tt, s')
| polls_timeout s s' :
    pass_not_met condition locators wait_timeout s s' ->
    time (driver s') - start_time > wait_timeout ->
    polls condition locators wait_timeout start_time 1 s
      (Raise (NoSuchElementException (timeout_message condition)), s')
| polls_again n s s' r :
    pass_not_met condition locators wait_timeout s s' ->
    time (driver s') - start_time <= wait_timeout ->
    polls condition locators wait_timeout start_time n s' r ->
    polls condition locators wait_timeout start_time (S n) s r.

(** *** The two phases of [_wait_for_negative] *)

(** Probing a locator: a search with the implicit wait at 0, after which
    the implicit wait is set to [timeout]. *)
Definition probe_one (timeout : Py.value) (d : D) (loc : locator) : D :=
  match as_tuple loc with
  | None => d
  | Some (by_, value) =>
      implicitly_wait timeout (snd (find_elements by_ value (implicitly_wait (Int 0) d)))
  end.

(** The state after each locator of the list was probed in turn. *)
Definition probe (store : ThreadStore D) (locators : list locator) : ThreadStore D :=
  set_driver store (fold_left (probe_one (_get_timeout store)) locators (driver store)).

Definition negative_message (loc : string * string) (condition : string) : string :=
  "Timeout occurred while waiting for element (" ++ fst loc ++ "=" ++ snd loc
  ++ ") to become '" ++ condition ++ "'".

(** [waits present s r]: waiting in turn for each locator of [present]
    to stop satisfying the condition ends with [r].  Each wait is given
    [wait_timeout] minus the time elapsed since [start_time]; the first
    wait that times out raises TimeoutException. *)
Inductive waits (condition : string) (wait_timeout start_time : Z)
    : list (string * string) -> ThreadStore D -> result unit * ThreadStore D -> Prop :=
| waits_done s :
    waits condition wait_timeout start_time [] s (Ok tt, s)
| waits_timeout loc rest s c d :
    WaitForManager._get_until_cond condition loc = Some c ->
    until_not (wait_timeout - (time (driver s) - start_time)) c (driver s) = (false, d) ->
    waits condition wait_timeout start_time (loc :: rest) s
      (Raise (TimeoutException (negative_message loc condition)), set_driver s d)
| waits_next loc rest s c d r :
    WaitForManager._get_until_cond condition loc = Some c ->
    until_not (wait_timeout - (time (driver s) - start_time)) c (driver s) = (true, d) ->
    waits condition wait_timeout start_time rest (set_driver s d) r ->
    waits condition wait_timeout start_time (loc :: rest) s r.

(** *** Switching frames and windows *)

(** The outcome of [FrameManager.switch] is that of the call
    [underlying] to the driver: the driver is left as the call left it,
    and a NoSuchFrameException of the call reaches the caller as
    NoSuchFrameException with the message "Invalid Frame ID: <name>". *)
Definition frame_switch_surfaces (frame_name : option string) (underlying : result unit * D)
    (outcome : result unit * FrameManager.t) : Prop :=
  FrameManager.driver (snd outcome) = snd underlying
  /\ match fst underlying with
     | Raise (NoSuchFrameException _) =>
         fst outcome
         = Raise (NoSuchFrameException ("Invalid Frame ID: " ++ str_of_opt frame_name))
     | r => fst outcome = r
     end.

(** [WindowManager.switch] goes to the window [handle]: the driver is
    left as [switch_to.window(handle)] leaves it, and a
    NoSuchWindowException of that call reaches the caller with the
    message "Invalid Window ID: <name>". *)
Definition goes_to_window (window_name : option string) (handle : string) (d : D)
    (outcome : result unit * WindowManager.t) : Prop :=
  WindowManager.driver (snd outcome) = snd (switch_to_window handle d)
  /\ match fst (switch_to_window handle d) with
     | Raise (NoSuchWindowException _) =>
         fst outcome
         = Raise (NoSuchWindowException ("Invalid Window ID: " ++ str_of_opt window_name))
     | r => fst outcome = r
     end.

End Notions.

(** ** Example data *)

Module Examples.

Definition element (i : string) (displayed enabled : bool) : WebElement :=
  {| element_id := i; is_displayed := displayed; is_enabled := enabled |}.

(** A page with a hidden element under [id=a] and a visible one under
    [css selector=b]; two windows and one frame. *)
Definition browser : Mock.browser := {|
  Mock.clock := 100;
  Mock.implicit := Py.Int 30;
  Mock.dom := [((By.ID, "a"), [element "A" false true]);
               ((By.CSS_SELECTOR, "b"), [element "B" true true])];
  Mock.handles := ["w0"; "w1"];
  Mock.current_window := Some "w0";
  Mock.frames := ["f0"];
  Mock.frame_path := []
|}.

Definition store : ThreadStore Mock.browser :=
  {| driver := browser; timeout := Py.Int 7 |}.

Definition window_manager : WindowManager.t :=
  {| WindowManager.driver := browser; WindowManager.windows := ∅ |}.

Definition frame_manager : FrameManager.t := {| FrameManager.driver := browser |}.

(** [{'id': 'zz'}], which finds nothing, then [{'CSS': 'b'}]. *)
Definition fallback_locators : list locator := [[("id", "zz")]; [("CSS", "b")]].

(** [{'id': 'a'}], present and hidden, then [{'css': 'b'}], visible. *)
Definition hidden_then_visible : list locator := [[("id", "a")]; [("css", "b")]].

(** [{'foo': 'x'}]: a locator type that [BYS] does not have. *)
Definition unrecognized_locators : list locator := [[("foo", "x")]].

(** The message "a", a line feed, "b". *)
Definition two_lines : string := String "a" (String "010" "b").

Definition active : DialogsManager.t := {| DialogsManager.is_active := true |}.
Definition inactive : DialogsManager.t := {| DialogsManager.is_active := false |}.

End Examples.

(** ** The rest of the module *)

(** *** [WindowManager.close] *)

(** [driver.close()]: closes the window the driver is on. *)
Class Closing (D : Type) := {
  driver_close : D -> result unit * D
}.

Module WindowManagerClose.
Section WindowManagerClose.
Context {D : Type} `{WebDriver D} `{Closing D}.

Definition close (window_name : option string) (self : WindowManager.t)
    : result unit * WindowManager.t :=
  let '(r, self) :=
    match window_name with
    | Some (String _ _) => WindowManager.switch window_name self
    | _ => (Ok tt, self)
    end in
  match r with
  | Raise e => (Raise e, self)
  | Ok _ =>
      let '(r, d) := driver_close (WindowManager.driver self) in
      (r, WindowManager.set_driver self d)
  end.

End WindowManagerClose.
End WindowManagerClose.

(** The example browser closes the window it is on. *)
#[global] Instance mock_closing : Closing Mock.browser := {|
  driver_close b :=
    match Mock.current_window b with
    | None => (Raise (NoSuchWindowException "no such window"), Mock.tick 1 b)
    | Some h =>
        (Ok tt,
         {| Mock.clock := Mock.clock b + 1; Mock.implicit := Mock.implicit b;
            Mock.dom := Mock.dom b;
            Mock.handles := List.filter (fun x => negb (String.eqb x h)) (Mock.handles b);
            Mock.current_window := None; Mock.frames := Mock.frames b;
            Mock.frame_path := [] |})
    end
|}.

(** *** [DialogsManager.set_next_confirm_state] *)

Module DialogsAnswers.
Import JS DialogsManager.

(** [value] is [str(value)].  The script is the assignment of [true] or
    of [false] to [window.__webdriverNextConfirm]. *)
Definition set_next_confirm_state (value : string) (w : window) : Py.value * window :=
  let confirm := if String.eqb (lower value) "#ok" then Bool true else Bool false in
  (Py.None_, set_next_confirm w confirm).

(** [n] calls of a reader in a row: what each returned, oldest call
    first, and the page after the last. *)
Fixpoint read (get_next : window -> result Py.value * window) (n : nat) (w : window)
    : list (result Py.value) * window :=
  match n with
  | O => ([], w)
  | S n =>
      let '(x, w) := get_next w in
      let '(xs, w) := read get_next n w in
      (x :: xs, w)
  end.

(** What [get_next_alert] makes of an entry of its queue. *)
Definition alert_read (t : value) : result Py.value :=
  if truthy t
  then match t with
       | Str s => Ok (Py.Str (replace_newlines s))
       | _ => Raise (JavascriptException "t.replace is not a function")
       end
  else Ok (to_python t).

End DialogsAnswers.

(** *** Flow markers *)

Module FlowMarkers.

(** What the functions read from the thread store, and the iteration
    number that [get_iteration()] gives. *)
Record store := {
  test_case : Py.value;
  test_suite : Py.value;
  scenario_name : Py.value;
  data_sources : Py.value;
  status : Py.value;
  message : Py.value;
  iteration : Z
}.

(** [a or b] *)
Definition or_ (a b : Py.value) : Py.value := if truthy a then a else b.

(** The call [driver.execute_script(script, params)]. *)
Record script_call := {
  script : string;
  params : gmap string Py.value
}.

Definition _send_marker (stage : string) (params : gmap string Py.value) : script_call :=
  {| script := "/* FLOW_MARKER test-case-" ++ stage ++ " */"; params := params |}.

Definition _send_start_flow_marker (s : store) : script_call :=
  let stage := "start" in
  let params : gmap string Py.value :=
    <["testSuiteName" := or_ (scenario_name s) (test_suite s)]>
      (<["testCaseName" := test_case s]> ∅) in
  let params :=
    if truthy (data_sources s)
    then <["testDataIterationId" := Py.Int (iteration s)]> params
    else params in
  _send_marker stage params.

Definition _send_exit_flow_marker (s : store) : script_call :=
  let stage := "stop" in
  let labels := ["status"; "message"] in
  let values := [status s; message s] in
  let params : gmap string Py.value := list_to_map (zip labels values) in
  _send_marker stage params.

(** The handlers that apiritif calls when it enters and exits a
    transaction. *)
Inductive handler :=
| send_start_flow_marker
| send_exit_flow_marker
| other_handler (name : string).

(** The dictionary that [add_flow_markers] hands back to
    [set_transaction_handlers]. *)
Definition add_flow_markers (handlers : gmap string (list handler))
    : result (gmap string (list handler)) :=
  match handlers !! "enter" with
  | None => Raise (KeyError "enter")
  | Some enter =>
      let handlers := <["enter" := (enter ++ [send_start_flow_marker])%list]> handlers in
      match handlers !! "exit" with
      | None => Raise (KeyError "exit")
      | Some exit_ =>
          Ok (<["exit" := (exit_ ++ [send_exit_flow_marker])%list]> handlers)
      end
  end.

End FlowMarkers.

(** *** Notions for the properties of the rest *)

(** The locator with its type in lower case. *)
Definition lower_type (loc : locator) : locator :=
  match loc with
  | [] => []
  | (locator_type, locator_value) :: rest => (lower locator_type, locator_value) :: rest
  end.

(** The five strategies of [BYS]. *)
Definition strategies : list string :=
  [By.XPATH; By.CSS_SELECTOR; By.NAME; By.ID; By.LINK_TEXT].

(** *** More example data *)

Module MoreExamples.

(** A session with no window left open. *)
Definition no_windows : Mock.browser := {|
  Mock.clock := 0;
  Mock.implicit := Py.Int 30;
  Mock.dom := [];
  Mock.handles := [];
  Mock.current_window := None;
  Mock.frames := [];
  Mock.frame_path := []
|}.

Definition manager_without_windows : WindowManager.t :=
  {| WindowManager.driver := no_windows; WindowManager.windows := ∅ |}.

(** [{'id': 'zz'}], which finds nothing, then [{'foo': 'x'}], of a type
    that [BYS] does not have. *)
Definition miss_then_unrecognized : list locator := [[("id", "zz")]; [("foo", "x")]].

(** [{'ID': 'a', 'css': 'b'}]: two keys, the first in upper case. *)
Definition two_keys : list locator := [[("ID", "a"); ("css", "b")]].

(** The handlers before [add_flow_markers]: one of the script's own on
    "enter", none on "exit". *)
Definition handlers : gmap string (list FlowMarkers.handler) :=
  <["enter" := [FlowMarkers.other_handler "log"]]> (<["exit" := []]> ∅).

(** A page where [replace_dialogs] has run. *)
Definition replaced_page : JS.window :=
  snd (DialogsManager.replace_dialogs Examples.active JS.fresh).

(** A thread store with no timeout stored. *)
Definition store_without_timeout : ThreadStore Mock.browser :=
  {| driver := Examples.browser; timeout := Py.None_ |}.

End MoreExamples.

(** A session whose window has been closed: the commands that act on
    the window raise NoSuchWindowException. *)
Module ClosedWindow.

Record session := {
  commands : nat;
  implicit : Py.value
}.

Definition command (s : session) : session :=
  {| commands := S (commands s); implicit := implicit s |}.

Definition closed : exn :=
  NoSuchWindowException "no such window: target window already closed".

#[global] Instance web_driver : WebDriver session := {|
  time s := Z.of_nat (commands s);
  implicit_wait := implicit;
  implicitly_wait v s := {| commands := S (commands s); implicit := v |};
  find_elements _ _ s := ([], command s);
  window_handles _ := [];
  switch_to_window _ s := (Raise closed, command s);
  switch_to_default_content s := (Raise closed, command s);
  switch_to_frame _ s := (Raise closed, command s);
  switch_to_parent_frame s := (Raise closed, command s);
  until _ _ s := (None, command s);
  until_not _ _ s := (true, command s)
|}.

Definition start : session := {| commands := 0; implicit := Py.Int 30 |}.

Definition frame_manager : FrameManager.t := {| FrameManager.driver := start |}.

End ClosedWindow.

(** * Properties *)

(** ** Python helpers *)

Lemma mem_elem_of (x : string) (l : list string) : mem x l = true <-> x ∈ l.
Proof.
  unfold mem. rewrite existsb_exists. split.
  - intros (y & Hy & Heq). apply String.eqb_eq in Heq. subst.
    by apply list_elem_of_In.
  - intros Hin. exists x. split; [by apply list_elem_of_In | apply String.eqb_refl].
Qed.

Lemma mem_not_elem_of (x : string) (l : list string) : x ∉ l -> mem x l = false.
Proof.
  intros Hn. destruct (mem x l) eqn:E; [|done].
  apply mem_elem_of in E. contradiction.
Qed.

(** The string methods on the inputs the helpers meet. *)
Example int_reads_integers :
  Py.int "12" = Some 12 /\ Py.int " 007 " = Some 7 /\ Py.int "-3" = Some (-3)
  /\ Py.int "1_0" = Some 10 /\ Py.int "" = None /\ Py.int "abc" = None
  /\ Py.int "1_" = None /\ Py.int "1 2" = None.
Proof. repeat split. Qed.

Example int_rejects :
  Py.int (String "028" "7") = None /\ Py.int (String "7" (String "031" "")) = None
  /\ Py.int (String "009" "7") = Some 7
  /\ Py.int (string_of_list_ascii (repeat "1"%char 4301)) = None
  /\ is_Some (Py.int (string_of_list_ascii (repeat "1"%char 4300))).
Proof. split_and!; try (vm_compute; reflexivity). vm_compute. by eexists. Qed.

Example split_on_equals :
  Py.split "=" "index=1=2" = ["index"; "1"; "2"]
  /\ Py.split "=" "index=" = ["index"; ""]
  /\ Py.split "=" "abc" = ["abc"].
Proof. repeat split. Qed.

Example isdigit_and_lower :
  isdigit "042" = true /\ isdigit "" = false /\ isdigit "4a" = false
  /\ lower "NotVisible" = "notvisible" /\ str_of_int 12 = "12".
Proof. repeat split. Qed.

Example index_from_either_end :
  Py.index ["w0"; "w1"] 1 = Some "w1" /\ Py.index ["w0"; "w1"] (-1) = Some "w1"
  /\ Py.index ["w0"; "w1"] 2 = None /\ Py.index ["w0"; "w1"] (-3) = None.
Proof. repeat split. Qed.

(** [BYS] has the five locator types and no other. *)
Lemma BYS_lookup (key by_ : string) :
  Manager.BYS !! key = Some by_ <->
  (key, by_) ∈ [("xpath", By.XPATH); ("css", By.CSS_SELECTOR); ("name", By.NAME);
                ("id", By.ID); ("linktext", By.LINK_TEXT)].
Proof.
  unfold Manager.BYS. rewrite !elem_of_cons, elem_of_nil.
  destruct (decide (key = "xpath")) as [->|?];
    [rewrite lookup_insert_eq; intuition congruence|].
  rewrite lookup_insert_ne by done.
  destruct (decide (key = "css")) as [->|?];
    [rewrite lookup_insert_eq; intuition congruence|].
  rewrite lookup_insert_ne by done.
  destruct (decide (key = "name")) as [->|?];
    [rewrite lookup_insert_eq; intuition congruence|].
  rewrite lookup_insert_ne by done.
  destruct (decide (key = "id")) as [->|?];
    [rewrite lookup_insert_eq; intuition congruence|].
  rewrite lookup_insert_ne by done.
  destruct (decide (key = "linktext")) as [->|?];
    [rewrite lookup_insert_eq; intuition congruence|].
  rewrite lookup_insert_ne, lookup_empty by done. intuition congruence.
Qed.

(** ** [_get_timeout] *)

(** C9: [_get_timeout] returns 30 when the stored timeout is unset
    ([None] or an empty value) and the stored value unchanged otherwise;
    a stored 0 comes back as 0. *)
Theorem get_timeout_default_only_when_unset :
  forall (D : Type) (store : ThreadStore D),
    _get_timeout store = (if unset (timeout store) then Py.Int 30 else timeout store)
    /\ _get_timeout {| driver := driver store; timeout := Py.Int 0 |} = Py.Int 0.
Proof.
  intros D [d v]. split; [|reflexivity].
  unfold _get_timeout. simpl.
  destruct v as [| [] | n | s | l]; simpl; try reflexivity.
  - destruct (Z.eqb_spec n 0) as [->|Hn]; reflexivity.
  - destruct s; reflexivity.
  - destruct l; reflexivity.
Qed.

(** ** [Manager.get_locator] *)

Section GetLocator.
Context {D : Type} `{WebDriver D}.

Lemma getitem_first_key (locator_type locator_value : string) (rest : locator) :
  Manager.getitem ((locator_type, locator_value) :: rest) locator_type = Some locator_value.
Proof. unfold Manager.getitem. simpl. by rewrite String.eqb_refl. Qed.

Lemma recognized_as_tuple (loc : locator) :
  recognized loc = true -> exists t, as_tuple loc = Some t.
Proof.
  destruct loc as [|[ty v] rest]; simpl; [discriminate|].
  intros Hr. apply bool_decide_eq_true in Hr as [by_ Hby].
  rewrite Hby. by eexists.
Qed.

(** With recognized locator types the loop raises nothing. *)
Lemma for_locators_recognized (locators : list locator) :
  Forall (fun loc => recognized loc = true) locators ->
  forall first_locator d, exists found d',
    Manager.for_locators locators first_locator d
    = (Ok (found, first_locator_after first_locator locators), d').
Proof.
  induction 1 as [|loc rest Hloc _ IH]; intros first_locator d.
  - exists None, d. by destruct first_locator.
  - destruct loc as [|[ty v] tl]; [discriminate|].
    simpl in Hloc. apply bool_decide_eq_true in Hloc as [by_ Hby].
    cbn [Manager.for_locators]. rewrite getitem_first_key.
    destruct first_locator as [t|]; rewrite Hby.
    + destruct (find_elements by_ v (implicitly_wait (Int 0) d)) as [els d1].
      destruct (Z.of_nat (length els) >? 0)%Z; [by eexists _, _|].
      destruct (IH (Some t) d1) as (found & d' & ->). by exists found, d'.
    + destruct (find_elements by_ v d) as [els d1].
      destruct (Z.of_nat (length els) >? 0)%Z.
      * eexists _, _. simpl. by rewrite Hby.
      * destruct (IH (Some (by_, v)) d1) as (found & d' & ->).
        exists found, d'. simpl. by rewrite Hby.
Qed.

(** While the page stays as it is, the loop stops at the first locator
    that matches. *)
Lemma for_locators_first_match (page_of : D -> string -> string -> list WebElement)
    (Hpage : shows_page page_of) (locators : list locator) :
  Forall (fun loc => recognized loc = true) locators ->
  forall first_locator d, exists d',
    Manager.for_locators locators first_locator d
    = (Ok (List.find (matches (page_of d)) locators ≫= as_tuple,
           first_locator_after first_locator locators), d')
    /\ page_of d' = page_of d.
Proof.
  destruct Hpage as (Hfind & Hkeep & Himp).
  assert (Hstep : forall by_ v d, exists d1,
             find_elements by_ v d = (page_of d by_ v, d1) /\ page_of d1 = page_of d).
  { intros by_ v d. specialize (Hfind by_ v d). specialize (Hkeep by_ v d).
    destruct (find_elements by_ v d) as [els d1]. simpl in *. subst. by exists d1. }
  assert (Hpos : forall (e : WebElement) es, (Z.of_nat (length (e :: es)) >? 0)%Z = true).
  { intros e es. apply Z.gtb_lt. cbn [length]. lia. }
  induction 1 as [|loc rest Hloc _ IH]; intros first_locator d.
  - exists d. by destruct first_locator.
  - destruct loc as [|[ty v] tl]; [discriminate|].
    simpl in Hloc. apply bool_decide_eq_true in Hloc as [by_ Hby].
    cbn [Manager.for_locators List.find]. rewrite getitem_first_key.
    unfold matches at 1. cbn [as_tuple]. rewrite Hby. cbn [fmap option_fmap option_map].
    destruct first_locator as [t|]; rewrite ?Hby.
    + destruct (Hstep by_ v (implicitly_wait (Int 0) d)) as (d1 & -> & Hd1).
      rewrite Himp in *.
      destruct (page_of d by_ v) as [|e es].
      * destruct (IH (Some t) d1) as (d' & -> & Hd'). exists d'.
        by rewrite Hd', Hd1.
      * exists d1. rewrite Hpos. cbn. by rewrite Hby.
    + destruct (Hstep by_ v d) as (d1 & -> & Hd1).
      destruct (page_of d by_ v) as [|e es].
      * destruct (IH (Some (by_, v)) d1) as (d' & -> & Hd'). exists d'.
        rewrite Hd', Hd1. cbn. by rewrite Hby.
      * exists d1. rewrite Hpos. cbn. by rewrite Hby.
Qed.

Lemma find_none_all_false {A} (f : A -> bool) (l : list A) :
  List.find f l = None <-> forall x, x ∈ l -> f x = false.
Proof.
  split.
  - intros Hf x Hx. apply list_elem_of_In in Hx. by eapply find_none.
  - induction l as [|a l IH]; intros Hall; [done|].
    simpl. rewrite (Hall a) by constructor.
    apply IH. intros x Hx. apply Hall. by constructor.
Qed.

Lemma find_first {A} (f : A -> bool) (pre : list A) (x : A) (post : list A) :
  (forall y, y ∈ pre -> f y = false) -> f x = true ->
  List.find f (pre ++ x :: post)%list = Some x.
Proof.
  induction pre as [|a pre IH]; intros Hpre Hx; simpl.
  - by rewrite Hx.
  - rewrite (Hpre a) by constructor. apply IH; [|done].
    intros y Hy. apply Hpre. by constructor.
Qed.

(** C1, amended: for every non-empty list of locators whose types are
    all recognized, [get_locator] returns the tuple of the first
    locator, in list order, that matches an element of the page; when
    none matches it raises NoSuchElementException with the message that
    names the tuple of the first locator of the list, and it raises that
    exception only then. *)
Theorem get_locator_first_match
    (page_of : D -> string -> string -> list WebElement)
    (locators : list locator) (ignore_implicit_wait : bool) (store : ThreadStore D) :
  shows_page page_of ->
  locators <> [] ->
  Forall (fun loc => recognized loc = true) locators ->
  let page := page_of (driver store) in
  let r := fst (Manager.get_locator locators ignore_implicit_wait store) in
  (forall pre loc post,
      locators = (pre ++ loc :: post)%list ->
      (forall l, l ∈ pre -> matches page l = false) ->
      matches page loc = true ->
      exists t, as_tuple loc = Some t /\ r = Ok t)
  /\ ((forall l, l ∈ locators -> matches page l = false) ->
      exists first t, head locators = Some first /\ as_tuple first = Some t
        /\ r = Raise (NoSuchElementException (not_found_message t)))
  /\ ((exists msg, r = Raise (NoSuchElementException msg))
      <-> (forall l, l ∈ locators -> matches page l = false)).
Proof.
  intros Hpage Hne Hrec page r.
  assert (Hrun : r = match List.find (matches page) locators ≫= as_tuple with
                     | Some t => Ok t
                     | None =>
                         match head locators ≫= as_tuple with
                         | Some t => Raise (NoSuchElementException (not_found_message t))
                         | None => Raise TypeError
                         end
                     end).
  { subst r page. unfold Manager.get_locator.
    destruct (for_locators_first_match page_of Hpage locators Hrec None
                (if ignore_implicit_wait
                 then implicitly_wait (Int 0) (_get_driver store)
                 else _get_driver store)) as (d' & -> & _).
    replace (page_of (if ignore_implicit_wait
                      then implicitly_wait (Int 0) (_get_driver store)
                      else _get_driver store)) with (page_of (driver store))
      by (destruct ignore_implicit_wait; [symmetry; apply Hpage | done]).
    destruct (List.find (matches (page_of (driver store))) locators ≫= as_tuple) as [t|];
      [done|].
    unfold first_locator_after.
    destruct (head locators ≫= as_tuple) as [[by_ v]|]; done. }
  assert (Hhead : exists first t, head locators = Some first /\ as_tuple first = Some t).
  { destruct locators as [|first rest]; [done|].
    apply Forall_cons in Hrec as [Hfirst _].
    destruct (recognized_as_tuple _ Hfirst) as [t Ht]. by exists first, t. }
  assert (Hnone : (forall l, l ∈ locators -> matches page l = false) ->
                  exists first t, head locators = Some first /\ as_tuple first = Some t
                    /\ r = Raise (NoSuchElementException (not_found_message t))).
  { intros Hall. destruct Hhead as (first & t & Hf & Ht). exists first, t.
    split_and!; [done..|].
    rewrite Hrun. apply find_none_all_false in Hall. rewrite Hall. simpl.
    rewrite Hf. simpl. by rewrite Ht. }
  split_and!.
  - intros pre loc post -> Hpre Hloc.
    assert (Hr : recognized loc = true).
    { eapply Forall_forall in Hrec; [done|]. apply elem_of_app. right. constructor. }
    destruct (recognized_as_tuple _ Hr) as [t Ht]. exists t. split; [done|].
    rewrite Hrun, (find_first _ _ _ _ Hpre Hloc). simpl. by rewrite Ht.
  - done.
  - split.
    + intros [msg Hmsg]. apply find_none_all_false.
      destruct (List.find (matches page) locators) as [loc|] eqn:Hfind; [|done].
      exfalso. apply find_some in Hfind as [Hin Hm].
      assert (Hr : recognized loc = true).
      { eapply Forall_forall in Hrec; [done|]. by apply list_elem_of_In. }
      destruct (recognized_as_tuple _ Hr) as [t Ht].
      rewrite Hrun in Hmsg. simpl in Hmsg. by rewrite Ht in Hmsg.
    + intros Hall. destruct (Hnone Hall) as (first & t & _ & _ & ->). by eexists.
Qed.

Lemma get_timeout_unset (store : ThreadStore D) :
  _get_timeout store = if unset (timeout store) then Py.Int 30 else timeout store.
Proof.
  destruct store as [d v]. unfold _get_timeout. simpl.
  destruct v as [| [] | n | s | l]; simpl; try reflexivity.
  - destruct (Z.eqb_spec n 0) as [->|Hn]; reflexivity.
  - destruct s; reflexivity.
  - destruct l; reflexivity.
Qed.

(** C10, amended: for every list of locators whose types are all
    recognized, [get_locator] ends on the success path, on the not-found
    path, or, for an empty list, on the failure to format the message,
    and in each case leaves the implicit wait of the driver at the
    stored timeout, or at 30 when the stored timeout is unset ([None] or
    an empty value). *)
Theorem get_locator_restores_implicit_wait
    (locators : list locator) (ignore_implicit_wait : bool) (store : ThreadStore D) :
  (forall v d, implicit_wait (implicitly_wait v d) = v) ->
  Forall (fun loc => recognized loc = true) locators ->
  let '(r, store') := Manager.get_locator locators ignore_implicit_wait store in
  implicit_wait (driver store')
  = (if unset (timeout store) then Py.Int 30 else timeout store)
  /\ ((exists t, r = Ok t)
      \/ (exists msg, r = Raise (NoSuchElementException msg))
      \/ (locators = [] /\ r = Raise TypeError)).
Proof.
  intros Hset Hrec. rewrite <- get_timeout_unset. unfold Manager.get_locator.
  destruct (for_locators_recognized locators Hrec None
              (if ignore_implicit_wait
               then implicitly_wait (Int 0) (_get_driver store)
               else _get_driver store)) as (found & d' & ->).
  destruct found as [t|].
  - simpl. split; [apply Hset | left; by eexists].
  - unfold first_locator_after.
    destruct (head locators ≫= as_tuple) as [[by_ v]|] eqn:Hhead.
    + simpl. split; [apply Hset | right; left; by eexists].
    + simpl. split; [apply Hset|]. right; right. split; [|done].
      destruct locators as [|first rest]; [done|].
      apply Forall_cons in Hrec as [Hfirst _].
      destruct (recognized_as_tuple _ Hfirst) as [t Ht].
      simpl in Hhead. by rewrite Ht in Hhead.
Qed.

End GetLocator.

(** ** [WaitForManager.wait_for] *)

Section WaitFor.
Context {D : Type} `{WebDriver D}.

(** C8: for every condition string whose lowercase form is in neither
    [POSITIVE_CONDS] nor [NEGATIVE_CONDS], [wait_for] returns at once,
    whatever the fuel, with the thread store and the driver in it as
    they were, and raises nothing. *)
Theorem wait_for_unknown_condition
    (fuel : nat) (condition : string) (locators : list locator) (wait_timeout : Z)
    (store : ThreadStore D) :
  lower condition ∉ WaitForManager.POSITIVE_CONDS ->
  lower condition ∉ WaitForManager.NEGATIVE_CONDS ->
  WaitForManager.wait_for fuel condition locators wait_timeout store = Some (Ok tt, store).
Proof.
  intros Hpos Hneg. unfold WaitForManager.wait_for.
  by rewrite (mem_not_elem_of _ _ Hpos), (mem_not_elem_of _ _ Hneg).
Qed.

(** *** The clock during [get_locator] *)

Lemma for_locators_clock (locators : list locator) :
  clock_advances ->
  Forall (fun loc => recognized loc = true) locators ->
  forall first_locator d,
    time d <= time (snd (Manager.for_locators locators first_locator d))
    /\ (locators <> [] -> time d < time (snd (Manager.for_locators locators first_locator d))).
Proof.
  intros (Hfind & Himp & _).
  induction 1 as [|loc rest Hloc _ IH]; intros first_locator d.
  - simpl. split; [lia | done].
  - destruct loc as [|[ty v] tl]; [discriminate|].
    simpl in Hloc. apply bool_decide_eq_true in Hloc as [by_ Hby].
    cbn [Manager.for_locators]. rewrite getitem_first_key.
    assert (Hgo : forall first' d0, time d <= time d0 ->
              time d < time (snd (let '(elements, d1) := find_elements by_ v d0 in
                                  if (Z.of_nat (length elements) >? 0)%Z
                                  then (Ok (Some (by_, v), first'), d1)
                                  else Manager.for_locators rest first' d1))).
    { intros first' d0 Hd0. specialize (Hfind by_ v d0).
      destruct (find_elements by_ v d0) as [els d1]. simpl in Hfind.
      destruct (Z.of_nat (length els) >? 0)%Z; simpl; [lia|].
      destruct (IH first' d1) as [Hle _]. lia. }
    destruct first_locator as [t|]; rewrite Hby.
    + specialize (Hgo (Some t) (implicitly_wait (Int 0) d) (Himp _ _)).
      split; [lia | done].
    + specialize (Hgo (Some (by_, v)) d ltac:(lia)). split; [lia | done].
Qed.

Lemma get_locator_clock (locators : list locator) (ignore_implicit_wait : bool)
    (store : ThreadStore D) :
  clock_advances ->
  locators <> [] ->
  Forall (fun loc => recognized loc = true) locators ->
  time (driver store)
  < time (driver (snd (Manager.get_locator locators ignore_implicit_wait store))).
Proof.
  intros Hclock Hne Hrec. unfold Manager.get_locator.
  set (d0 := if ignore_implicit_wait
             then implicitly_wait (Int 0) (_get_driver store) else _get_driver store).
  assert (Hd0 : time (driver store) <= time d0).
  { subst d0. destruct ignore_implicit_wait; [apply Hclock | unfold _get_driver; lia]. }
  destruct (for_locators_clock locators Hclock Hrec None d0) as [_ Hlt].
  specialize (Hlt Hne).
  destruct (for_locators_recognized locators Hrec None d0) as (found & d' & Heq).
  rewrite Heq in *. simpl in Hlt.
  destruct Hclock as (_ & Himp & _).
  pose proof (Himp (_get_timeout store) d').
  destruct found as [t|]; [simpl; lia|].
  unfold first_locator_after.
  destruct (head locators ≫= as_tuple) as [[by_ v]|]; simpl; lia.
Qed.

(** The two ways [get_locator] ends on a non-empty list of recognized
    locators. *)
Lemma get_locator_outcome (locators : list locator) (ignore_implicit_wait : bool)
    (store : ThreadStore D) :
  locators <> [] ->
  Forall (fun loc => recognized loc = true) locators ->
  (exists t, fst (Manager.get_locator locators ignore_implicit_wait store) = Ok t)
  \/ (exists msg, fst (Manager.get_locator locators ignore_implicit_wait store)
                  = Raise (NoSuchElementException msg)).
Proof.
  intros Hne Hrec. unfold Manager.get_locator.
  destruct (for_locators_recognized locators Hrec None
              (if ignore_implicit_wait
               then implicitly_wait (Int 0) (_get_driver store)
               else _get_driver store)) as (found & d' & ->).
  destruct found as [t|]; [left; by eexists|]. right.
  destruct locators as [|first rest]; [done|].
  apply Forall_cons in Hrec as [Hfirst _].
  destruct (recognized_as_tuple _ Hfirst) as [[by_ v] Ht].
  simpl. rewrite Ht. simpl. by eexists.
Qed.

(** *** Positive conditions *)

Lemma positive_until_cond (condition : string) (loc : string * string) :
  condition ∈ WaitForManager.POSITIVE_CONDS ->
  exists c, WaitForManager._get_until_cond condition loc = Some c.
Proof.
  intros Hin. apply list_elem_of_In in Hin. simpl in Hin.
  destruct Hin as [<-|[<-|[<-|[]]]]; by eexists.
Qed.

Lemma positive_pass_cases (condition : string) (locators : list locator)
    (wait_timeout : Z) (s : ThreadStore D) :
  clock_advances ->
  condition ∈ WaitForManager.POSITIVE_CONDS ->
  locators <> [] ->
  Forall (fun loc => recognized loc = true) locators ->
  exists met s',
    WaitForManager.positive_pass condition locators wait_timeout s = (Ok met, s')
    /\ time (driver s) < time (driver s')
    /\ (if met then pass_met condition locators wait_timeout s s'
        else pass_not_met condition locators wait_timeout s s').
Proof.
  intros Hclock Hpos Hne Hrec.
  pose proof (get_locator_clock locators true s Hclock Hne Hrec) as Hlt.
  unfold WaitForManager.positive_pass.
  destruct (get_locator_outcome locators true s Hne Hrec) as [[t Ht]|[msg Hmsg]].
  - destruct (Manager.get_locator locators true s) as [r s1] eqn:Hget.
    simpl in Ht, Hlt. subst r.
    destruct (positive_until_cond condition t Hpos) as [c Hc]. rewrite Hc.
    destruct Hclock as (_ & _ & Huntil). specialize (Huntil wait_timeout c (driver s1)).
    destruct (until wait_timeout c (driver s1)) as [[e|] d] eqn:Hu; simpl in Huntil.
    + exists true, (set_driver s1 d). split_and!; [done | simpl; lia |].
      by exists t, s1, c, e, d.
    + exists false, (set_driver s1 d). split_and!; [done | simpl; lia |].
      right. by exists t, s1, c, d.
  - destruct (Manager.get_locator locators true s) as [r s1] eqn:Hget.
    simpl in Hmsg, Hlt. subst r.
    exists false, s1. split_and!; [done..|]. left. by exists msg.
Qed.

Lemma while_true_polls (condition : string) (locators : list locator)
    (wait_timeout start_time : Z) :
  clock_advances ->
  condition ∈ WaitForManager.POSITIVE_CONDS ->
  locators <> [] ->
  Forall (fun loc => recognized loc = true) locators ->
  forall fuel s,
    (Z.to_nat (start_time + wait_timeout - time (driver s)) < fuel)%nat ->
    exists n r,
      WaitForManager.while_true fuel condition locators wait_timeout start_time s = Some r
      /\ polls condition locators wait_timeout start_time n s r
      /\ (n <= Z.to_nat (start_time + wait_timeout - time (driver s)) + 1)%nat.
Proof.
  intros Hclock Hpos Hne Hrec.
  induction fuel as [|fuel IH]; intros s Hfuel; [lia|].
  cbn [WaitForManager.while_true].
  destruct (positive_pass_cases condition locators wait_timeout s Hclock Hpos Hne Hrec)
    as (met & s' & -> & Hlt & Hpass).
  destruct met.
  - exists 1%nat, (Ok tt, s'). split_and!; [done | by constructor | lia].
  - destruct (Z.gtb_spec (time (driver s') - start_time) wait_timeout) as [Hgt|Hle].
    + exists 1%nat. eexists. split_and!; [done | | lia].
      apply polls_timeout; [done | lia].
    + destruct (IH s') as (n & r & Hrun & Hpolls & Hn); [lia|].
      exists (S n), r. split_and!; [done | | lia].
      by eapply polls_again.
Qed.

(** C2, amended: for every positive condition and every non-empty list
    of locators whose types are all recognized, [wait_for] ends, given
    fuel for more than [wait_timeout] passes.  It returns normally at
    the first pass in which the locator that [get_locator] returns (the
    first one that matches an element) satisfies the condition within
    the wait; after a pass in which that is not so it raises
    NoSuchElementException, with the message "Timeout occurred ...", as
    soon as more than [wait_timeout] has elapsed, and starts no pass
    after that: where each search takes at least a tick, there are at
    most [wait_timeout + 1] passes. *)
Theorem wait_for_positive_polls
    (fuel : nat) (condition : string) (locators : list locator) (wait_timeout : Z)
    (store : ThreadStore D) :
  clock_advances ->
  lower condition ∈ WaitForManager.POSITIVE_CONDS ->
  locators <> [] ->
  Forall (fun loc => recognized loc = true) locators ->
  (Z.to_nat wait_timeout < fuel)%nat ->
  exists n r,
    WaitForManager.wait_for fuel condition locators wait_timeout store = Some r
    /\ polls (lower condition) locators wait_timeout (time (driver store)) n store r
    /\ (n <= Z.to_nat wait_timeout + 1)%nat.
Proof.
  intros Hclock Hpos Hne Hrec Hfuel.
  unfold WaitForManager.wait_for, WaitForManager._wait_for_positive.
  rewrite (proj2 (mem_elem_of _ _) Hpos).
  destruct (while_true_polls (lower condition) locators wait_timeout (time (driver store))
              Hclock Hpos Hne Hrec fuel store) as (n & r & Hrun & Hpolls & Hn).
  - replace (time (driver store) + wait_timeout - time (driver store)) with wait_timeout
      by lia. done.
  - exists n, r. split_and!; [done..|].
    replace (time (driver store) + wait_timeout - time (driver store)) with wait_timeout
      in Hn by lia. done.
Qed.

(** *** Negative conditions *)

Lemma negative_until_cond (condition : string) (loc : string * string) :
  condition ∈ WaitForManager.NEGATIVE_CONDS ->
  mem condition WaitForManager.POSITIVE_CONDS = false
  /\ exists c, WaitForManager._get_until_cond condition loc = Some c.
Proof.
  intros Hin. apply list_elem_of_In in Hin. simpl in Hin.
  destruct Hin as [<-|[<-|[<-|[]]]]; (split; [reflexivity | by eexists]).
Qed.

Lemma probe_one_page (page_of : D -> string -> string -> list WebElement)
    (timeout : Py.value) (d : D) (loc : locator) :
  shows_page page_of -> page_of (probe_one timeout d loc) = page_of d.
Proof.
  intros (_ & Hkeep & Himp). unfold probe_one.
  destruct (as_tuple loc) as [[by_ v]|]; [|done].
  by rewrite Himp, Hkeep, Himp.
Qed.

(** [get_locator] on a single locator, as the first loop of
    [_wait_for_negative] calls it. *)
Lemma get_locator_single (page_of : D -> string -> string -> list WebElement)
    (loc : locator) (t : string * string) (s : ThreadStore D) :
  shows_page page_of ->
  as_tuple loc = Some t ->
  Manager.get_locator [loc] true s
  = (if matches (page_of (driver s)) loc then Ok t
     else Raise (NoSuchElementException (not_found_message t)),
     set_driver s (probe_one (_get_timeout s) (driver s) loc)).
Proof.
  intros (Hfind & _ & Himp) Ht.
  unfold matches, probe_one. rewrite Ht.
  destruct loc as [|[ty v] tl]; [discriminate|]. simpl in Ht.
  destruct (Manager.BYS !! lower ty) as [by_|] eqn:Hby; [|discriminate].
  simpl in Ht. injection Ht as <-.
  unfold Manager.get_locator. cbn [Manager.for_locators].
  rewrite getitem_first_key, Hby. unfold _get_driver.
  specialize (Hfind by_ v (implicitly_wait (Int 0) (driver s))).
  rewrite Himp in Hfind.
  destruct (find_elements by_ v (implicitly_wait (Int 0) (driver s))) as [els d1].
  simpl in Hfind. subst els. simpl.
  destruct (page_of (driver s) by_ v) as [|e es]; [done|].
  replace (Z.of_nat (length (e :: es)) >? 0)%Z with true; [done|].
  symmetry. apply Z.gtb_lt. cbn [length]. lia.
Qed.

Lemma negative_for_locators (page_of : D -> string -> string -> list WebElement)
    (locators : list locator) :
  shows_page page_of ->
  Forall (fun loc => recognized loc = true) locators ->
  forall present_locs s,
    WaitForManager.for_locators locators present_locs s
    = (Ok (present_locs
           ++ omap as_tuple (List.filter (matches (page_of (driver s))) locators))%list,
       probe s locators).
Proof.
  intros Hpage. induction 1 as [|loc rest Hloc _ IH]; intros present_locs s.
  - simpl. rewrite app_nil_r. by destruct s.
  - destruct (recognized_as_tuple _ Hloc) as [t Ht].
    cbn [WaitForManager.for_locators List.filter].
    rewrite (get_locator_single page_of loc t s Hpage Ht).
    assert (Hnext : probe (set_driver s (probe_one (_get_timeout s) (driver s) loc)) rest
                    = probe s (loc :: rest)) by done.
    destruct (matches (page_of (driver s)) loc).
    + rewrite IH, Hnext. simpl. rewrite (probe_one_page page_of _ _ _ Hpage), Ht.
      by rewrite <- app_assoc.
    + rewrite IH, Hnext. simpl. by rewrite (probe_one_page page_of _ _ _ Hpage).
Qed.

Lemma for_present_locs_waits (condition : string) (wait_timeout start_time : Z)
    (present_locs : list (string * string)) :
  condition ∈ WaitForManager.NEGATIVE_CONDS ->
  forall s,
    waits condition wait_timeout start_time present_locs s
      (WaitForManager.for_present_locs present_locs condition wait_timeout start_time s).
Proof.
  intros Hneg. induction present_locs as [|loc rest IH]; intros s.
  - constructor.
  - cbn [WaitForManager.for_present_locs].
    destruct (negative_until_cond condition loc Hneg) as [_ [c Hc]]. rewrite Hc.
    destruct (until_not (wait_timeout - (time (driver s) - start_time)) c (driver s))
      as [[] d] eqn:Hwait.
    + eapply waits_next; [done..|]. apply IH.
    + by eapply waits_timeout.
Qed.

(** C6, amended: for every negative condition and every list of
    locators whose types are all recognized, [wait_for] first probes
    each locator (a search with the implicit wait at 0).  When no
    locator matches an element of the page it returns right after, with
    no wait; otherwise it waits in turn for each locator that matched to
    stop satisfying the condition, giving each wait [wait_timeout] minus
    the time elapsed since the probing, and the first wait that times
    out raises TimeoutException to the caller. *)
Theorem wait_for_negative_waits
    (page_of : D -> string -> string -> list WebElement)
    (fuel : nat) (condition : string) (locators : list locator) (wait_timeout : Z)
    (store : ThreadStore D) :
  shows_page page_of ->
  lower condition ∈ WaitForManager.NEGATIVE_CONDS ->
  Forall (fun loc => recognized loc = true) locators ->
  let present := omap as_tuple (List.filter (matches (page_of (driver store))) locators) in
  let probed := probe store locators in
  exists r,
    WaitForManager.wait_for fuel condition locators wait_timeout store = Some r
    /\ (present = [] -> r = (Ok tt, probed))
    /\ waits (lower condition) wait_timeout (time (driver probed)) present probed r.
Proof.
  intros Hpage Hneg Hrec present probed.
  unfold WaitForManager.wait_for.
  destruct (negative_until_cond (lower condition) ("", "") Hneg) as [-> _].
  rewrite (proj2 (mem_elem_of _ _) Hneg).
  unfold WaitForManager._wait_for_negative.
  rewrite (negative_for_locators page_of locators Hpage Hrec [] store).
  fold present probed. rewrite app_nil_l.
  destruct present as [|loc rest] eqn:Hpresent.
  - exists (Ok tt, probed). split_and!; [done..|constructor].
  - eexists. split_and!; [done | done |].
    by apply for_present_locs_waits.
Qed.

End WaitFor.

(** ** [FrameManager.switch] *)

Section FrameSwitch.
Context {D : Type} `{WebDriver D}.

Lemma prefix_app (p s : string) :
  String.prefix p s = true -> exists rest, s = p ++ rest.
Proof.
  revert s. induction p as [|a p IH]; intros s Hp.
  - by exists s.
  - destruct s as [|b s]; [discriminate|]. simpl in Hp.
    destruct (ascii_dec a b) as [->|]; [|discriminate].
    destruct (IH s Hp) as [rest ->]. by exists rest.
Qed.

Lemma split_not_nil (sep : ascii) (s : string) : Py.split sep s <> [].
Proof.
  induction s as [|c r IH]; simpl; [done|].
  destruct (Ascii.eqb c sep); [done|]. by destruct (Py.split sep r).
Qed.

(** After the prefix "index=", the second piece of [split("=")] is the
    text up to the next "=". *)
Lemma split_index_prefix (rest : string) :
  exists text more,
    Py.split "=" rest = text :: more
    /\ Py.index (Py.split "=" ("index=" ++ rest)) 1 = Some text.
Proof.
  destruct (Py.split "=" rest) as [|text more] eqn:Hs; [by apply split_not_nil in Hs|].
  exists text, more. split; [done|].
  simpl. change ("" ++ rest) with rest. rewrite Hs. unfold Py.index. simpl.
  destruct (Z.ltb_spec 1 (Z.of_nat (S (S (length more))))); [done | lia].
Qed.

Lemma frame_surfaces_intro (frame_name : option string) (underlying : result unit * D) :
  frame_switch_surfaces frame_name underlying
    (let '(r, d) := underlying in
     match r with
     | Raise (NoSuchFrameException _) =>
         (Raise (NoSuchFrameException ("Invalid Frame ID: " ++ str_of_opt frame_name)),
          {| FrameManager.driver := d |})
     | _ => (r, {| FrameManager.driver := d |})
     end).
Proof.
  destruct underlying as [[[]|e] d]; [by split|].
  destruct e; by split.
Qed.

(** C5, amended: for every frame name, [FrameManager.switch] selects one
    strategy: default content for no name, an empty name or
    "relative=top"; for a name that starts with "index=", the frame at
    the integer that the text between the first and the second "=" reads
    as, or, when that text is no integer, a ValueError with no call to
    the driver; the parent frame for "relative=parent"; the frame by
    name for any other name.  The outcome is that of the call made: its
    NoSuchFrameException surfaces as NoSuchFrameException with the
    message "Invalid Frame ID: <name>", and any other exception of the
    call reaches the caller as it is. *)
Theorem frame_switch_strategy (frame_name : option string) (self : FrameManager.t) :
  let d := FrameManager.driver self in
  let outcome := FrameManager.switch frame_name self in
  ((frame_name = None \/ frame_name = Some "" \/ frame_name = Some "relative=top") ->
   frame_switch_surfaces frame_name (switch_to_default_content d) outcome)
  /\ (forall name,
        frame_name = Some name -> startswith name "index=" = true ->
        exists text,
          Py.index (Py.split "=" name) 1 = Some text
          /\ match Py.int text with
             | Some i => frame_switch_surfaces frame_name (switch_to_frame (FrameIndex i) d)
                           outcome
             | None => outcome = (Raise ValueError, self)
             end)
  /\ (frame_name = Some "relative=parent" ->
      frame_switch_surfaces frame_name (switch_to_parent_frame d) outcome)
  /\ (forall name,
        frame_name = Some name ->
        name <> "" -> name <> "relative=top" -> startswith name "index=" = false ->
        name <> "relative=parent" ->
        frame_switch_surfaces frame_name (switch_to_frame (FrameName name) d) outcome).
Proof.
  intros d outcome. subst d outcome. split_and!.
  - intros [->|[->| ->]]; apply frame_surfaces_intro.
  - intros name -> Hprefix. unfold FrameManager.switch.
    destruct (prefix_app _ _ Hprefix) as [rest ->].
    destruct (split_index_prefix rest) as (text & more & _ & Htext).
    exists text. split; [done|].
    change (String.eqb ("index=" ++ rest) "") with false.
    change (String.eqb ("index=" ++ rest) "relative=top") with false.
    cbn [orb]. rewrite Hprefix, Htext.
    destruct (Py.int text) as [i|]; [apply frame_surfaces_intro | by destruct self].
  - intros ->. apply frame_surfaces_intro.
  - intros name -> Hne Htop Hidx Hpar. unfold FrameManager.switch.
    apply String.eqb_neq in Hne, Htop, Hpar. rewrite Hne, Htop, Hidx, Hpar.
    apply frame_surfaces_intro.
Qed.

End FrameSwitch.

(** ** [WindowManager.switch] *)

Section WindowSwitch.
Context {D : Type} `{WebDriver D}.

Lemma index_last {A} (l : list A) : Py.index l (-1) = last l.
Proof.
  unfold Py.index. cbn [Z.leb Z.compare].
  induction l as [|a l IH] using rev_ind; [done|].
  rewrite last_snoc, length_app. cbn [length].
  destruct (Z.leb_spec (- Z.of_nat (length l + 1)) (-1)); [|lia].
  replace (Z.to_nat (Z.of_nat (length l + 1) + -1)) with (length l) by lia.
  rewrite nth_error_app2 by lia. by rewrite Nat.sub_diag.
Qed.

Lemma index_out_of_range {A} (l : list A) (i : Z) :
  Z.of_nat (length l) <= i -> Py.index l i = None.
Proof.
  intros Hi. unfold Py.index.
  destruct (Z.leb_spec 0 i); [|lia].
  destruct (Z.ltb_spec i (Z.of_nat (length l))); [lia | done].
Qed.

(** A name that starts with "win_ser_" is neither empty nor a number. *)
Lemma win_ser_name (name : string) :
  startswith name "win_ser_" = true ->
  exists c rest, name = String c rest /\ isdigit name = false.
Proof.
  intros Hp. destruct (prefix_app _ _ Hp) as [rest ->]. by eexists _, _.
Qed.

Lemma goes_to_window_intro (window_name : option string) (handle : string)
    (self : WindowManager.t) :
  goes_to_window window_name handle (WindowManager.driver self)
    (let '(r, self') := WindowManager.switch_to handle self in
     match r with
     | Raise (NoSuchWindowException _) =>
         (Raise (NoSuchWindowException ("Invalid Window ID: " ++ str_of_opt window_name)),
          self')
     | _ => (r, self')
     end).
Proof.
  unfold goes_to_window, WindowManager.switch_to.
  destruct (switch_to_window handle (WindowManager.driver self)) as [[[]|e] d]; [by split|].
  destruct e; by split.
Qed.

(** [switch] with a number for a name: an index within the list of
    handles raises NoSuchWindowException, one past its end IndexError;
    no window is switched to, the manager and the driver stay as they
    were. *)
Lemma switch_by_index (name : string) (i : Z) (self : WindowManager.t) :
  let n := Z.of_nat (length (window_handles (WindowManager.driver self))) in
  (isdigit name = true -> Py.int name = Some i -> 0 <= i < n ->
   WindowManager.switch (Some name) self
   = (Raise (NoSuchWindowException ("Invalid Window ID: " ++ name)), self))
  /\ (isdigit name = true -> Py.int name = Some i -> n <= i ->
      WindowManager.switch (Some name) self = (Raise IndexError, self)).
Proof.
  intros n. subst n. split; intros Hd Hi Hrange.
  - unfold WindowManager.switch. destruct name as [|c r]; [discriminate|].
    rewrite Hd, Hi. unfold WindowManager._switch_by_idx.
    destruct (Z.leb_spec (Z.of_nat (length (window_handles (WindowManager.driver self)))) i);
      [lia | done].
  - unfold WindowManager.switch. destruct name as [|c r]; [discriminate|].
    rewrite Hd, Hi. unfold WindowManager._switch_by_idx.
    destruct (Z.leb_spec (Z.of_nat (length (window_handles (WindowManager.driver self)))) i);
      [|lia].
    destruct (Z.geb_spec i 0); [|lia]. cbn [andb].
    by rewrite index_out_of_range.
Qed.

Lemma switch_to_windows (handle : string) (self : WindowManager.t) :
  WindowManager.windows (snd (WindowManager.switch_to handle self))
  = WindowManager.windows self.
Proof.
  unfold WindowManager.switch_to.
  by destruct (switch_to_window handle (WindowManager.driver self)).
Qed.

Lemma switch_by_idx_windows (i : Z) (self : WindowManager.t) :
  WindowManager.windows (snd (WindowManager._switch_by_idx i self))
  = WindowManager.windows self.
Proof.
  unfold WindowManager._switch_by_idx.
  destruct (_ && _)%bool; [|done].
  destruct (Py.index _ _); [apply switch_to_windows | done].
Qed.

Lemma switch_by_win_ser_keeps (name : string) (self : WindowManager.t) (k h : string) :
  WindowManager.windows self !! k = Some h ->
  WindowManager.windows (snd (WindowManager._switch_by_win_ser name self)) !! k = Some h.
Proof.
  intros Hk. unfold WindowManager._switch_by_win_ser.
  destruct (String.eqb name "win_ser_local").
  - destruct (_ >? _)%Z; [|done].
    destruct (Py.index _ _); [by rewrite switch_to_windows | done].
  - destruct (WindowManager.windows self !! name) as [h'|] eqn:Hname.
    + rewrite Hname. by rewrite switch_to_windows.
    + destruct (Py.index _ _) as [last|]; [|done].
      cbn [WindowManager.windows]. rewrite lookup_insert_eq.
      rewrite switch_to_windows. cbn [WindowManager.windows].
      rewrite lookup_insert_ne; [done|]. intros ->. congruence.
Qed.

Lemma switch_windows_relabel (window_name : option string)
    (x : result unit * WindowManager.t) :
  snd (let '(r, self') := x in
       match r return result unit * @WindowManager.t D with
       | Raise (NoSuchWindowException _) =>
           (Raise (NoSuchWindowException ("Invalid Window ID: " ++ str_of_opt window_name)),
            self')
       | _ => (r, self')
       end) = snd x.
Proof. destruct x as [[[]|e] self']; [done|]. by destruct e. Qed.

(** C4: the first [switch] with a "win_ser_" name other than
    "win_ser_local" binds the name to the last window handle open and
    goes to that window; a [switch] with a name that is bound goes to
    the stored handle and leaves the bindings as they are; and no
    [switch], whatever its argument, changes or removes a binding. *)
Theorem win_ser_binding_stable (name : string) (self : WindowManager.t) :
  startswith name "win_ser_" = true ->
  name <> "win_ser_local" ->
  let outcome := WindowManager.switch (Some name) self in
  (forall h,
      WindowManager.windows self !! name = None ->
      last (window_handles (WindowManager.driver self)) = Some h ->
      WindowManager.windows (snd outcome) = <[name := h]> (WindowManager.windows self)
      /\ goes_to_window (Some name) h (WindowManager.driver self) outcome)
  /\ (forall h,
        WindowManager.windows self !! name = Some h ->
        WindowManager.windows (snd outcome) = WindowManager.windows self
        /\ goes_to_window (Some name) h (WindowManager.driver self) outcome)
  /\ (forall window_name k h,
        WindowManager.windows self !! k = Some h ->
        WindowManager.windows (snd (WindowManager.switch window_name self)) !! k = Some h).
Proof.
  intros Hp Hlocal outcome.
  destruct (win_ser_name name Hp) as (c & rest & Hname & Hdigit).
  assert (Hrun : outcome
                 = let '(r, self') := WindowManager._switch_by_win_ser name self in
                   match r with
                   | Raise (NoSuchWindowException _) =>
                       (Raise (NoSuchWindowException
                                 ("Invalid Window ID: " ++ str_of_opt (Some name))), self')
                   | _ => (r, self')
                   end).
  { subst outcome. unfold WindowManager.switch. rewrite Hname in *.
    by rewrite Hdigit, Hp. }
  apply String.eqb_neq in Hlocal.
  split_and!.
  - intros h Hnone Hlast. rewrite Hrun.
    unfold WindowManager._switch_by_win_ser.
    rewrite Hlocal, Hnone, index_last, Hlast.
    cbn [WindowManager.windows]. rewrite lookup_insert_eq.
    split.
    + by rewrite switch_windows_relabel, switch_to_windows.
    + apply (goes_to_window_intro (Some name) h
               {| WindowManager.driver := WindowManager.driver self;
                  WindowManager.windows := <[name:=h]> (WindowManager.windows self) |}).
  - intros h Hsome. rewrite Hrun.
    unfold WindowManager._switch_by_win_ser. rewrite Hlocal, Hsome, Hsome.
    split.
    + by rewrite switch_windows_relabel, switch_to_windows.
    + apply goes_to_window_intro.
  - intros window_name k h Hk. unfold WindowManager.switch.
    rewrite switch_windows_relabel.
    destruct window_name as [[|c' r']|].
    + destruct (Py.index _ _); [by rewrite switch_to_windows | done].
    + destruct (isdigit (String c' r')).
      * destruct (Py.int _); [by rewrite switch_by_idx_windows | done].
      * destruct (startswith (String c' r') "win_ser_");
          [by apply switch_by_win_ser_keeps | by rewrite switch_to_windows].
    + destruct (Py.index _ _); [by rewrite switch_to_windows | done].
Qed.

End WindowSwitch.

(** ** [DialogsManager] *)

Section Dialogs.
Import JS DialogsManager.

Lemma raise_dialog_queues (x : dialog) (w : window) (qa qc qp : list JS.value) :
  replaced_with w qa qc qp ->
  replaced_with (raise_dialog w x)
    (qa ++ alerts_of [x]) (qc ++ confirms_of [x]) (qp ++ prompts_of [x]).
Proof.
  intros (Ha & Hc & Hp & Hqa & Hqc & Hqp).
  destruct x as [msg|msg|msg def]; simpl; rewrite !app_nil_r.
  - unfold replaced_alert. rewrite Ha, Hqa. by repeat split.
  - unfold replaced_confirm. rewrite Hc, Hqc. by repeat split.
  - unfold replaced_prompt. rewrite Hp, Hqp. by repeat split.
Qed.

Lemma queues_cons (x : dialog) (xs : list dialog) :
  alerts_of (x :: xs) = (alerts_of [x] ++ alerts_of xs)%list
  /\ confirms_of (x :: xs) = (confirms_of [x] ++ confirms_of xs)%list
  /\ prompts_of (x :: xs) = (prompts_of [x] ++ prompts_of xs)%list.
Proof. by destruct x. Qed.

Lemma raise_dialogs_queues (xs : list dialog) :
  forall w qa qc qp,
    replaced_with w qa qc qp ->
    replaced_with (raise_dialogs xs w)
      (qa ++ alerts_of xs) (qc ++ confirms_of xs) (qp ++ prompts_of xs).
Proof.
  induction xs as [|x xs IH]; intros w qa qc qp Hw.
  - simpl. by rewrite !app_nil_r.
  - destruct (queues_cons x xs) as (-> & -> & ->).
    rewrite !app_assoc. apply (IH (raise_dialog w x)).
    by apply raise_dialog_queues.
Qed.

(** C7, amended: after [replace_dialogs] has run on a page the messages
    of the dialogs that the page raises are kept per kind, oldest first
    (a prompt is kept as its message or, when that is empty, as its
    default value), and a later dialog goes to the end of its queue.
    [get_next_confirm] and [get_next_prompt] remove the oldest entry and
    return it; [get_next_alert] removes the oldest text and returns it
    with every line feed replaced by a space.  On a page where the
    dialogs were never replaced, also because the manager is not active,
    each returns [None] and changes nothing; and running
    [replace_dialogs] on a page where it has run leaves the page as it
    is. *)
Theorem dialog_queues :
  (forall self xs,
      is_active self = true ->
      let w := raise_dialogs xs (snd (replace_dialogs self fresh)) in
      __webdriverAlerts w = Some (alerts_of xs)
      /\ __webdriverConfirms w = Some (confirms_of xs)
      /\ __webdriverPrompts w = Some (prompts_of xs))
  /\ (forall w qa qc qp x,
        replaced_with w qa qc qp ->
        replaced_with (raise_dialog w x)
          (qa ++ alerts_of [x]) (qc ++ confirms_of [x]) (qp ++ prompts_of [x]))
  /\ (forall w s q,
        __webdriverAlerts w = Some (Str s :: q) ->
        get_next_alert w = (Ok (Py.Str (replace_newlines s)), set_alerts w q))
  /\ (forall w m q,
        __webdriverConfirms w = Some (m :: q) ->
        get_next_confirm w = (Ok (to_python m), set_confirms w q))
  /\ (forall w m q,
        __webdriverPrompts w = Some (m :: q) ->
        get_next_prompt w = (Ok (to_python m), set_prompts w q))
  /\ (forall self w, is_active self = false -> replace_dialogs self w = (Py.None_, w))
  /\ (forall w, __webdriverAlerts w = None -> get_next_alert w = (Ok Py.None_, w))
  /\ (forall w, __webdriverConfirms w = None -> get_next_confirm w = (Ok Py.None_, w))
  /\ (forall w, __webdriverPrompts w = None -> get_next_prompt w = (Ok Py.None_, w))
  /\ (forall self w,
        is_Some (__webdriverAlerts w) -> replace_dialogs self w = (Py.None_, w)).
Proof.
  split_and!.
  - intros self xs Hactive w.
    destruct (raise_dialogs_queues xs (snd (replace_dialogs self fresh)) [] [] [])
      as (_ & _ & _ & Ha & Hc & Hp).
    + unfold replace_dialogs. rewrite Hactive. by repeat split.
    + by rewrite !app_nil_l in *.
  - intros w qa qc qp x Hw. by apply raise_dialog_queues.
  - intros w s q Hq. unfold get_next_alert. rewrite Hq. cbn [shift].
    by destruct s as [|c r].
  - intros w m q Hq. unfold get_next_confirm. by rewrite Hq.
  - intros w m q Hq. unfold get_next_prompt. by rewrite Hq.
  - intros self w Hoff. unfold replace_dialogs. by rewrite Hoff.
  - intros w Hq. unfold get_next_alert. by rewrite Hq.
  - intros w Hq. unfold get_next_confirm. by rewrite Hq.
  - intros w Hq. unfold get_next_prompt. by rewrite Hq.
  - intros self w Hsome. unfold replace_dialogs, replace_dialogs_script.
    rewrite bool_decide_eq_true_2 by done. by destruct (is_active self).
Qed.

(** C7, the claim as stated fails: the alert "a", line feed, "b" is the
    only message kept, and [get_next_alert] returns "a b", which is not
    that message. *)
Lemma get_next_alert_rewrites_message :
  let w := raise_dialogs [Alert (Str Examples.two_lines)]
             (snd (replace_dialogs Examples.active fresh)) in
  __webdriverAlerts w = Some [Str Examples.two_lines]
  /\ fst (get_next_alert w) = Ok (Py.Str "a b")
  /\ Py.Str "a b" <> Py.Str Examples.two_lines.
Proof. split_and!; [reflexivity | reflexivity | discriminate]. Qed.

End Dialogs.

(** ** The example browser *)

(** The concrete browser is a driver of the kind the statements above
    are about. *)

Lemma mock_shows_page : shows_page Mock.elements_at.
Proof.
  split_and!.
  - intros by_ value d. simpl. unfold Mock.find.
    by destruct (Mock.elements_at d by_ value).
  - intros by_ value d. simpl. unfold Mock.find.
    by destruct (Mock.elements_at d by_ value).
  - done.
Qed.

Lemma mock_clock_advances : clock_advances (D := Mock.browser).
Proof.
  split_and!.
  - intros by_ value d. simpl. unfold Mock.find, Mock.implicit_ticks.
    destruct (Mock.elements_at d by_ value); simpl; [|lia].
    destruct (Mock.implicit d); simpl; lia.
  - intros v d. simpl. lia.
  - intros t c d. simpl. unfold Mock.wait_until.
    destruct (Mock.holds c d); simpl; lia.
Qed.

Lemma mock_implicit_wait (v : Py.value) (d : Mock.browser) :
  implicit_wait (implicitly_wait v d) = v.
Proof. reflexivity. Qed.

(** *** [get_locator] *)

(** C1 at work: of [{'id': 'zz'}] and [{'CSS': 'b'}] the second is the
    first to match. *)
Lemma get_locator_first_match_witness :
  fst (Manager.get_locator Examples.fallback_locators false Examples.store)
  = Ok (By.CSS_SELECTOR, "b").
Proof.
  destruct (get_locator_first_match Mock.elements_at Examples.fallback_locators false
              Examples.store mock_shows_page ltac:(discriminate)
              ltac:(repeat constructor)) as [Hfirst _].
  destruct (Hfirst [[("id", "zz")]] [("CSS", "b")] [] eq_refl) as (t & Ht & Hr).
  - intros l Hl. apply list_elem_of_singleton in Hl. by subst.
  - reflexivity.
  - vm_compute in Ht. injection Ht as <-. exact Hr.
Defined.

(** C1, the claim as stated fails: [{'foo': 'x'}] matches no element of
    the page, and [get_locator] raises KeyError, not
    NoSuchElementException. *)
Lemma get_locator_unrecognized_type :
  let r := fst (Manager.get_locator Examples.unrecognized_locators false Examples.store) in
  Examples.unrecognized_locators <> []
  /\ (forall l, l ∈ Examples.unrecognized_locators ->
               matches (Mock.elements_at Examples.browser) l = false)
  /\ r = Raise (KeyError "foo")
  /\ ~ (exists msg, r = Raise (NoSuchElementException msg))
  /\ ~ (exists t, r = Ok t).
Proof.
  split_and!.
  - discriminate.
  - intros l Hl. apply list_elem_of_singleton in Hl. by subst.
  - reflexivity.
  - intros [msg Hmsg]. vm_compute in Hmsg. discriminate.
  - intros [t Ht]. vm_compute in Ht. discriminate.
Qed.

(** C10 at work: with 7 stored, the implicit wait is back at 7 after
    the fallback to a second locator. *)
Lemma get_locator_restores_implicit_wait_witness :
  let '(r, store') := Manager.get_locator Examples.fallback_locators false Examples.store in
  implicit_wait (driver store') = Py.Int 7
  /\ ((exists t, r = Ok t)
      \/ (exists msg, r = Raise (NoSuchElementException msg))
      \/ (Examples.fallback_locators = [] /\ r = Raise TypeError)).
Proof.
  apply (get_locator_restores_implicit_wait Examples.fallback_locators false Examples.store).
  - intros v d. reflexivity.
  - repeat constructor.
Defined.

(** C10, the claim as stated fails: with nothing stored, [None], the
    implicit wait ends at 30, which is not the stored value. *)
Lemma get_locator_without_stored_timeout :
  let store' :=
    snd (Manager.get_locator Examples.fallback_locators false
           MoreExamples.store_without_timeout) in
  timeout MoreExamples.store_without_timeout = Py.None_
  /\ Forall (fun loc => recognized loc = true) Examples.fallback_locators
  /\ implicit_wait (driver store') = Py.Int 30
  /\ implicit_wait (driver store') <> timeout MoreExamples.store_without_timeout.
Proof. split_and!; [reflexivity | repeat constructor | reflexivity | discriminate]. Qed.

(** *** [wait_for] *)

(** C8 at work: "Enabled" is no condition of either list. *)
Lemma wait_for_unknown_condition_witness :
  WaitForManager.wait_for 0 "Enabled" Examples.fallback_locators 10 Examples.store
  = Some (Ok tt, Examples.store).
Proof.
  apply wait_for_unknown_condition; vm_compute; intros Hin;
    repeat (apply elem_of_cons in Hin as [Hin|Hin]; [discriminate|]);
    by apply elem_of_nil in Hin.
Defined.

(** C2 at work: waiting for "Present" on the hidden element. *)
Lemma wait_for_positive_polls_witness :
  exists n r,
    WaitForManager.wait_for 11 "Present" Examples.hidden_then_visible 10 Examples.store
    = Some r
    /\ polls (lower "Present") Examples.hidden_then_visible 10
         (time (driver Examples.store)) n Examples.store r
    /\ (n <= Z.to_nat 10 + 1)%nat.
Proof.
  apply wait_for_positive_polls.
  - apply mock_clock_advances.
  - vm_compute. by left.
  - discriminate.
  - repeat constructor.
  - simpl. lia.
Defined.

(** C2, the claim as stated fails: the second locator satisfies
    "visible" at once, and [wait_for] raises all the same, having waited
    on the first locator alone. *)
Lemma wait_for_visible_first_match_only :
  let condition := visibility_of_element_located (By.CSS_SELECTOR, "b") in
  fst (Manager.get_locator [[("css", "b")]] true Examples.store)
  = Ok (By.CSS_SELECTOR, "b")
  /\ fst (until 10 condition Examples.browser) = Some (Examples.element "B" true true)
  /\ fst <$> WaitForManager.wait_for 100 "visible" Examples.hidden_then_visible 10
               Examples.store
     = Some (Raise (NoSuchElementException
                      "Timeout occurred while waiting for 'visible' condition")).
Proof. split_and!; reflexivity. Qed.

(** C6 at work: "notVisible" on the two elements of the page. *)
Lemma wait_for_negative_waits_witness :
  let present :=
    omap as_tuple (List.filter (matches (Mock.elements_at (driver Examples.store)))
                     Examples.hidden_then_visible) in
  let probed := probe Examples.store Examples.hidden_then_visible in
  exists r,
    WaitForManager.wait_for 0 "notVisible" Examples.hidden_then_visible 10 Examples.store
    = Some r
    /\ (present = [] -> r = (Ok tt, probed))
    /\ waits (lower "notVisible") 10 (time (driver probed)) present probed r.
Proof.
  apply (wait_for_negative_waits Mock.elements_at).
  - apply mock_shows_page.
  - vm_compute. right. by left.
  - repeat constructor.
Defined.

(** C6, the claim as stated fails: [{'foo': 'x'}] matches no element of
    the page, and [wait_for] raises KeyError instead of returning. *)
Lemma wait_for_negative_unrecognized_type :
  (forall l, l ∈ Examples.unrecognized_locators ->
             matches (Mock.elements_at Examples.browser) l = false)
  /\ fst <$> WaitForManager.wait_for 0 "notpresent" Examples.unrecognized_locators 10
               Examples.store
     = Some (Raise (KeyError "foo")).
Proof.
  split.
  - intros l Hl. apply list_elem_of_singleton in Hl. by subst.
  - reflexivity.
Qed.

(** *** [FrameManager.switch] *)

(** C5, the claim as stated fails, twice.  "index=abc" starts with
    "index=", and [switch] raises ValueError with the driver as it was;
    no call for a frame by index, which takes a tick of the clock, has
    been made.  And in a session whose window has been closed the frame
    switch for "menu" fails with NoSuchWindowException, which reaches
    the caller as it is, not as NoSuchFrameException. *)
Lemma frame_switch_other_errors :
  startswith "index=abc" "index=" = true
  /\ FrameManager.switch (Some "index=abc") Examples.frame_manager
     = (Raise ValueError, Examples.frame_manager)
  /\ (forall i,
        ~ frame_switch_surfaces (Some "index=abc")
            (switch_to_frame (FrameIndex i) Examples.browser)
            (FrameManager.switch (Some "index=abc") Examples.frame_manager))
  /\ fst (switch_to_frame (FrameName "menu") ClosedWindow.start)
     = Raise ClosedWindow.closed
  /\ fst (FrameManager.switch (Some "menu") ClosedWindow.frame_manager)
     = Raise (NoSuchWindowException "no such window: target window already closed")
  /\ ~ (exists msg,
          fst (FrameManager.switch (Some "menu") ClosedWindow.frame_manager)
          = Raise (NoSuchFrameException msg)).
Proof.
  split_and!; [reflexivity | reflexivity | | reflexivity | reflexivity |].
  - intros i [Hd _]. apply (f_equal Mock.clock) in Hd.
    simpl in Hd. unfold Mock.to_frame in Hd.
    destruct (_ && _)%bool in Hd; simpl in Hd; lia.
  - intros [msg Hmsg]. discriminate Hmsg.
Qed.

(** [int] does not skip the control character 0x1c: "index=" followed
    by it and "0" is no frame index. *)
Example frame_switch_index_control_character :
  FrameManager.switch (Some ("index=" ++ String "028" "0")) Examples.frame_manager
  = (Raise ValueError, Examples.frame_manager)
  /\ fst (FrameManager.switch (Some "index= 0 ") Examples.frame_manager) = Ok tt.
Proof. split; reflexivity. Qed.

(** *** [WindowManager.switch] *)

(** C3, the code at the failing inputs: with the windows "w0" and "w1"
    open, the names "0" and "1" raise NoSuchWindowException and switch
    to nothing, and "2", out of range, raises IndexError. *)
Theorem switch_by_index_inverted :
  let self := Examples.window_manager in
  window_handles (WindowManager.driver self) = ["w0"; "w1"]
  /\ WindowManager.switch (Some "0") self
     = (Raise (NoSuchWindowException "Invalid Window ID: 0"), self)
  /\ WindowManager.switch (Some "1") self
     = (Raise (NoSuchWindowException "Invalid Window ID: 1"), self)
  /\ WindowManager.switch (Some "2") self = (Raise IndexError, self).
Proof.
  split_and!; [reflexivity | | | ].
  - apply (proj1 (switch_by_index "0" 0 Examples.window_manager)); [done | done |].
    simpl. lia.
  - apply (proj1 (switch_by_index "1" 1 Examples.window_manager)); [done | done |].
    simpl. lia.
  - apply (proj2 (switch_by_index "2" 2 Examples.window_manager)); [done | done |].
    simpl. lia.
Qed.

(** C4 at work: the first switch to "win_ser_1" binds it to "w1", the
    last of the two windows. *)
Lemma win_ser_binding_stable_witness :
  WindowManager.windows
    (snd (WindowManager.switch (Some "win_ser_1") Examples.window_manager))
  = <["win_ser_1" := "w1"]> ∅.
Proof.
  destruct (win_ser_binding_stable "win_ser_1" Examples.window_manager eq_refl
              ltac:(discriminate)) as [Hfirst _].
  exact (proj1 (Hfirst "w1" eq_refl eq_refl)).
Defined.

(** * Further properties *)

(** ** String methods *)

Lemma lower_ascii_idempotent (c : ascii) : lower_ascii (lower_ascii c) = lower_ascii c.
Proof. destruct c as [[] [] [] [] [] [] [] []]; reflexivity. Qed.

Lemma lower_idempotent (s : string) : lower (lower s) = lower s.
Proof.
  induction s as [|c r IH]; simpl; [done|].
  by rewrite lower_ascii_idempotent, IH.
Qed.

Lemma digit_not_space (c : ascii) : is_digit c = true -> is_space c = false.
Proof. destruct c as [[] [] [] [] [] [] [] []]; (reflexivity || discriminate). Qed.

Lemma rstrip_digits (s : string) : all_digits s = true -> rstrip s = s.
Proof.
  induction s as [|c r IH]; simpl; [done|].
  intros [Hc Hr]%andb_prop. rewrite (IH Hr).
  destruct r; [by rewrite (digit_not_space c Hc) | done].
Qed.

Lemma digits_value_digits (s : string) :
  all_digits s = true ->
  forall prev acc, 0 <= acc ->
    (s <> "" \/ prev = true) ->
    exists i, digits_value s prev acc = Some i /\ 0 <= i.
Proof.
  induction s as [|c r IH]; simpl; intros Hs prev acc Hacc Hne.
  - destruct Hne as [? | ->]; [done|]. by exists acc.
  - apply andb_prop in Hs as [Hc Hr]. rewrite Hc.
    apply (IH Hr); [lia | by right].
Qed.

Lemma count_digits_length (s : string) : (count_digits s <= String.length s)%nat.
Proof.
  induction s as [|c r IH]; simpl; [lia|]. destruct (is_digit c); lia.
Qed.

(** [int] reads every string that [isdigit] accepts and that is not
    longer than [max_str_digits], as a number that is not negative. *)
Lemma int_of_digits (s : string) :
  isdigit s = true ->
  (String.length s <= max_str_digits)%nat ->
  exists i, Py.int s = Some i /\ 0 <= i.
Proof.
  destruct s as [|c r]; [discriminate|]. intros Hs Hlen. cbn [isdigit] in Hs.
  pose proof Hs as [Hc Hr]%andb_prop.
  unfold Py.int, strip. cbn [lstrip]. rewrite (digit_not_space c Hc).
  rewrite (rstrip_digits _ Hs).
  pose proof (count_digits_length (String c r)) as Hcount.
  destruct (Nat.ltb_spec max_str_digits (count_digits (String c r))) as [Hover|_]; [lia|].
  destruct (digits_value_digits (String c r) Hs false 0) as (i & Hi & Hpos);
    [lia | by left |].
  exists i. split; [|done]. rewrite <- Hi.
  destruct c as [[] [] [] [] [] [] [] []]; try discriminate Hc; reflexivity.
Qed.

(** ** [WindowManager]: the other names, and [close] *)

Section WindowNames.
Context {D : Type} `{WebDriver D} `{Closing D}.

Lemma relabel_message (window_name : option string) (x : result unit * WindowManager.t)
    (msg : string) :
  fst (let '(r, self') := x in
       match r return result unit * @WindowManager.t D with
       | Raise (NoSuchWindowException _) =>
           (Raise (NoSuchWindowException ("Invalid Window ID: " ++ str_of_opt window_name)),
            self')
       | _ => (r, self')
       end) = Raise (NoSuchWindowException msg) ->
  msg = "Invalid Window ID: " ++ str_of_opt window_name.
Proof.
  destruct x as [[[]|e] self']; [discriminate|].
  destruct e; simpl; intros [= <-] || discriminate; done.
Qed.

Lemma switch_keeps (window_name : option string) (self : WindowManager.t) (k h : string) :
  WindowManager.windows self !! k = Some h ->
  WindowManager.windows (snd (WindowManager.switch window_name self)) !! k = Some h.
Proof.
  intros Hk. unfold WindowManager.switch. rewrite switch_windows_relabel.
  destruct window_name as [[|c r]|].
  - destruct (Py.index _ _); [by rewrite switch_to_windows | done].
  - destruct (isdigit (String c r)).
    + destruct (Py.int _); [by rewrite switch_by_idx_windows | done].
    + destruct (startswith (String c r) "win_ser_");
        [by apply switch_by_win_ser_keeps | by rewrite switch_to_windows].
  - destruct (Py.index _ _); [by rewrite switch_to_windows | done].
Qed.

(** X1: [switch] with no name, or with an empty one, goes to the last
    window handle and leaves the bindings alone; with no window open it
    raises IndexError, which nothing relabels, and changes nothing. *)
Theorem switch_without_name (window_name : option string) (self : WindowManager.t) :
  window_name = None \/ window_name = Some "" ->
  let outcome := WindowManager.switch window_name self in
  (forall h,
      last (window_handles (WindowManager.driver self)) = Some h ->
      WindowManager.windows (snd outcome) = WindowManager.windows self
      /\ goes_to_window window_name h (WindowManager.driver self) outcome)
  /\ (window_handles (WindowManager.driver self) = [] ->
      outcome = (Raise IndexError, self)).
Proof.
  intros Hname outcome.
  assert (Hrun : outcome
                 = let '(r, self') :=
                     match Py.index (window_handles (WindowManager.driver self)) (-1) with
                     | None => (Raise IndexError, self)
                     | Some h => WindowManager.switch_to h self
                     end in
                   match r with
                   | Raise (NoSuchWindowException _) =>
                       (Raise (NoSuchWindowException
                                 ("Invalid Window ID: " ++ str_of_opt window_name)), self')
                   | _ => (r, self')
                   end) by (by destruct Hname as [-> | ->]).
  rewrite Hrun, index_last. split.
  - intros h ->. split; [|apply goes_to_window_intro].
    by rewrite switch_windows_relabel, switch_to_windows.
  - by intros ->.
Qed.

(** X2: [switch("win_ser_local")] goes to the first window handle, binds
    nothing, and with no window open raises NoSuchWindowException
    "Invalid Window ID: win_ser_local". *)
Theorem switch_win_ser_local (self : WindowManager.t) :
  let outcome := WindowManager.switch (Some "win_ser_local") self in
  WindowManager.windows (snd outcome) = WindowManager.windows self
  /\ (forall h rest,
        window_handles (WindowManager.driver self) = h :: rest ->
        goes_to_window (Some "win_ser_local") h (WindowManager.driver self) outcome)
  /\ (window_handles (WindowManager.driver self) = [] ->
      outcome = (Raise (NoSuchWindowException "Invalid Window ID: win_ser_local"), self)).
Proof.
  intros outcome. subst outcome.
  unfold WindowManager.switch. cbn [isdigit all_digits is_digit andb].
  change (is_digit "w") with false. cbn [andb].
  change (startswith "win_ser_local" "win_ser_") with true. cbv iota.
  unfold WindowManager._switch_by_win_ser.
  change (String.eqb "win_ser_local" "win_ser_local") with true. cbv iota.
  destruct (window_handles (WindowManager.driver self)) as [|h rest] eqn:Hh.
  - split_and!; [done | done | done].
  - replace (Z.of_nat (length (h :: rest)) >? 0)%Z with true
      by (symmetry; apply Z.gtb_lt; cbn [length]; lia).
    change (Py.index (h :: rest) 0) with (Some h). cbv iota.
    split_and!.
    + by rewrite switch_windows_relabel, switch_to_windows.
    + intros h' rest' [= <- <-]. apply goes_to_window_intro.
    + done.
Qed.

(** X3: a name that is not empty, not a number and does not start with
    "win_ser_" is handed to [switch_to.window] as it is; the bindings
    stay. *)
Theorem switch_by_name (name : string) (self : WindowManager.t) :
  name <> "" ->
  isdigit name = false ->
  startswith name "win_ser_" = false ->
  let outcome := WindowManager.switch (Some name) self in
  WindowManager.windows (snd outcome) = WindowManager.windows self
  /\ goes_to_window (Some name) name (WindowManager.driver self) outcome.
Proof.
  intros Hne Hdigit Hprefix outcome. subst outcome.
  unfold WindowManager.switch. destruct name as [|c r]; [done|].
  rewrite Hdigit, Hprefix. split; [|apply goes_to_window_intro].
  by rewrite switch_windows_relabel, switch_to_windows.
Qed.

(** X4: whatever the name, a NoSuchWindowException that [switch] raises
    carries the message "Invalid Window ID: <name>", the name as given
    ("None" for no name). *)
Theorem switch_no_such_window_message
    (window_name : option string) (self : WindowManager.t) (msg : string) :
  fst (WindowManager.switch window_name self) = Raise (NoSuchWindowException msg) ->
  msg = "Invalid Window ID: " ++ str_of_opt window_name.
Proof. unfold WindowManager.switch. apply relabel_message. Qed.

(** X5: a name made of digits, no more of them than [int] converts,
    never switches.  It is read as an index that is not negative, and
    [switch] raises NoSuchWindowException "Invalid Window ID: <name>"
    when that index is within the list of window handles and IndexError
    when it is past its end, with the manager and the driver as they
    were. *)
Theorem switch_numeric_never_switches (name : string) (self : WindowManager.t) :
  isdigit name = true ->
  (String.length name <= max_str_digits)%nat ->
  exists i,
    Py.int name = Some i
    /\ 0 <= i
    /\ WindowManager.switch (Some name) self
       = (if (i <? Z.of_nat (length (window_handles (WindowManager.driver self))))%Z
          then Raise (NoSuchWindowException ("Invalid Window ID: " ++ name))
          else Raise IndexError,
          self).
Proof.
  intros Hdigit Hlen.
  destruct (int_of_digits name Hdigit Hlen) as (i & Hi & Hpos).
  exists i. split_and!; [done..|].
  destruct (switch_by_index name i self) as [Hin Hout].
  destruct (Z.ltb_spec i
              (Z.of_nat (length (window_handles (WindowManager.driver self))))).
  - apply Hin; [done | done | lia].
  - by apply Hout.
Qed.

(** X6: with no window open, the first [switch] with a "win_ser_" name
    raises IndexError and binds nothing. *)
Theorem win_ser_without_windows (name : string) (self : WindowManager.t) :
  startswith name "win_ser_" = true ->
  name <> "win_ser_local" ->
  WindowManager.windows self !! name = None ->
  window_handles (WindowManager.driver self) = [] ->
  WindowManager.switch (Some name) self = (Raise IndexError, self).
Proof.
  intros Hp Hlocal Hnone Hno.
  destruct (win_ser_name name Hp) as (c & rest & Hname & Hdigit).
  apply String.eqb_neq in Hlocal.
  unfold WindowManager.switch. rewrite Hname in *. rewrite Hdigit, Hp.
  unfold WindowManager._switch_by_win_ser. by rewrite Hlocal, Hnone, Hno.
Qed.

(** X7: [close] never removes a binding, also not that of the window it
    closes: the bindings before are among the bindings after. *)
Theorem close_keeps_bindings (window_name : option string) (self : WindowManager.t) :
  WindowManager.windows self
  ⊆ WindowManager.windows (snd (WindowManagerClose.close window_name self)).
Proof.
  apply map_subseteq_spec. intros k h Hk. unfold WindowManagerClose.close.
  assert (Hclose : forall self0 : WindowManager.t,
             WindowManager.windows self0 !! k = Some h ->
             WindowManager.windows
               (snd (let '(r, d) := driver_close (WindowManager.driver self0) in
                     (r, WindowManager.set_driver self0 d))) !! k = Some h).
  { intros self0 Hself0. by destruct (driver_close (WindowManager.driver self0)). }
  destruct window_name as [[|c r]|]; [by apply Hclose | | by apply Hclose].
  pose proof (switch_keeps (Some (String c r)) self k h Hk) as Hs.
  destruct (WindowManager.switch (Some (String c r)) self) as [[[]|e] self'];
    [by apply Hclose | done].
Qed.

(** When the switch to the named window fails, [close] raises what
    [switch] raised and does not call [driver.close()]: the driver is as
    the failed switch left it. *)
Theorem close_after_failed_switch
    (name : string) (self self' : WindowManager.t) (e : exn) :
  name <> "" ->
  WindowManager.switch (Some name) self = (Raise e, self') ->
  WindowManagerClose.close (Some name) self = (Raise e, self').
Proof.
  intros Hne Hs. unfold WindowManagerClose.close.
  destruct name as [|c r]; [done|]. by rewrite Hs.
Qed.

End WindowNames.

(** ** [Manager.get_locator]: any list of locators *)

Section GetLocatorAnyList.
Context {D : Type} `{WebDriver D}.

Lemma find_elements_page (page_of : D -> string -> string -> list WebElement) :
  shows_page page_of ->
  forall by_ v d, exists d1,
    find_elements by_ v d = (page_of d by_ v, d1) /\ page_of d1 = page_of d.
Proof.
  intros (Hfind & Hkeep & _) by_ v d.
  specialize (Hfind by_ v d). specialize (Hkeep by_ v d).
  destruct (find_elements by_ v d) as [els d1]. simpl in *. subst. by exists d1.
Qed.

Lemma for_locators_sound (page_of : D -> string -> string -> list WebElement)
    (Hpage : shows_page page_of) (locators : list locator) :
  forall first_locator d t first' d',
    Manager.for_locators locators first_locator d = (Ok (Some t, first'), d') ->
    exists loc, loc ∈ locators /\ as_tuple loc = Some t
                /\ matches (page_of d) loc = true.
Proof.
  induction locators as [|loc rest IH]; intros first_locator d t first' d' Hrun;
    [discriminate|].
  destruct loc as [|[ty v] tl]; [discriminate|].
  cbn [Manager.for_locators] in Hrun. rewrite getitem_first_key in Hrun.
  assert (Hgo : forall first0 d0 by_,
             Manager.BYS !! lower ty = Some by_ ->
             page_of d0 = page_of d ->
             (let '(elements, d1) := find_elements by_ v d0 in
              if (Z.of_nat (length elements) >? 0)%Z
              then (Ok (Some (by_, v), first0), d1)
              else Manager.for_locators rest first0 d1) = (Ok (Some t, first'), d') ->
             exists loc, loc ∈ ((ty, v) :: tl) :: rest /\ as_tuple loc = Some t
                         /\ matches (page_of d) loc = true).
  { intros first0 d0 by_ Hby Hd0 Hstep.
    destruct (find_elements_page page_of Hpage by_ v d0) as (d1 & Hf & Hd1).
    rewrite Hf, Hd0 in Hstep.
    destruct (page_of d by_ v) as [|e es] eqn:Hels.
    - simpl in Hstep. destruct (IH _ _ _ _ _ Hstep) as (loc & Hin & Ht & Hm).
      exists loc. split_and!; [by constructor | done |].
      by rewrite <- Hd0, <- Hd1.
    - replace (Z.of_nat (length (e :: es)) >? 0)%Z with true in Hstep
        by (symmetry; apply Z.gtb_lt; cbn [length]; lia).
      injection Hstep as <- _ _. exists ((ty, v) :: tl).
      split_and!; [constructor | simpl; by rewrite Hby |].
      unfold matches. simpl. rewrite Hby. simpl. by rewrite Hels. }
  destruct first_locator as [f|].
  - destruct (Manager.BYS !! lower ty) as [by_|] eqn:Hby; [|discriminate].
    apply (Hgo (Some f) (implicitly_wait (Int 0) d) by_ eq_refl); [apply Hpage | done].
  - destruct (Manager.BYS !! lower ty) as [by_|] eqn:Hby; [|discriminate].
    by apply (Hgo (Some (by_, v)) d by_ eq_refl).
Qed.

(** X8: for any list of locators, recognized or not, a tuple that
    [get_locator] returns is the tuple of a locator of the list that
    matches an element of the page, and its strategy is one of the five
    of [BYS]. *)
Theorem get_locator_sound
    (page_of : D -> string -> string -> list WebElement)
    (locators : list locator) (ignore_implicit_wait : bool) (store : ThreadStore D)
    (t : string * string) :
  shows_page page_of ->
  fst (Manager.get_locator locators ignore_implicit_wait store) = Ok t ->
  exists loc,
    loc ∈ locators /\ as_tuple loc = Some t
    /\ matches (page_of (driver store)) loc = true
    /\ fst t ∈ strategies.
Proof.
  intros Hpage Hrun. unfold Manager.get_locator in Hrun.
  set (d0 := if ignore_implicit_wait
             then implicitly_wait (Int 0) (_get_driver store) else _get_driver store) in *.
  assert (Hd0 : page_of d0 = page_of (driver store)).
  { subst d0. destruct ignore_implicit_wait; [apply Hpage | done]. }
  destruct (Manager.for_locators locators None d0) as [[[[found|] first']|e] d'] eqn:Hloop.
  - injection Hrun as ->.
    destruct (for_locators_sound page_of Hpage _ _ _ _ _ _ Hloop) as (loc & Hin & Ht & Hm).
    exists loc. split_and!; [done | done | by rewrite <- Hd0 |].
    destruct loc as [|[ty v] tl]; [discriminate|]. simpl in Ht.
    destruct (Manager.BYS !! lower ty) as [by_|] eqn:Hby; [|discriminate].
    injection Ht as <-. apply BYS_lookup in Hby. simpl.
    unfold strategies. rewrite !elem_of_cons in *. rewrite elem_of_nil in Hby.
    intuition congruence.
  - by destruct first' as [[by_ v]|].
  - discriminate.
Qed.

Lemma for_locators_first_item (locators : list locator) :
  forall first_locator d,
    Manager.for_locators (take 1 <$> locators) first_locator d
    = Manager.for_locators locators first_locator d.
Proof.
  induction locators as [|loc rest IH]; intros first_locator d; [done|].
  destruct loc as [|[ty v] tl]; [done|].
  cbn [fmap list_fmap take Manager.for_locators]. rewrite !getitem_first_key.
  destruct first_locator as [f|].
  - destruct (Manager.BYS !! lower ty) as [by_|]; [|done].
    destruct (find_elements by_ v (implicitly_wait (Int 0) d)) as [els d1].
    destruct (Z.of_nat (length els) >? 0)%Z; [done | apply IH].
  - destruct (Manager.BYS !! lower ty) as [by_|]; [|done].
    destruct (find_elements by_ v d) as [els d1].
    destruct (Z.of_nat (length els) >? 0)%Z; [done | apply IH].
Qed.

(** X9: of each locator dictionary only the first item counts: with
    every dictionary cut down to its first item, [get_locator] does the
    same and leaves the same state. *)
Theorem get_locator_first_item_only
    (locators : list locator) (ignore_implicit_wait : bool) (store : ThreadStore D) :
  Manager.get_locator (take 1 <$> locators) ignore_implicit_wait store
  = Manager.get_locator locators ignore_implicit_wait store.
Proof. unfold Manager.get_locator. by rewrite for_locators_first_item. Qed.

Lemma for_locators_lower_type (locators : list locator) :
  forall first_locator d,
    Manager.for_locators (lower_type <$> locators) first_locator d
    = Manager.for_locators locators first_locator d.
Proof.
  induction locators as [|loc rest IH]; intros first_locator d; [done|].
  destruct loc as [|[ty v] tl]; [done|].
  cbn [fmap list_fmap lower_type Manager.for_locators].
  rewrite !getitem_first_key, lower_idempotent.
  destruct first_locator as [f|].
  - destruct (Manager.BYS !! lower ty) as [by_|]; [|done].
    destruct (find_elements by_ v (implicitly_wait (Int 0) d)) as [els d1].
    destruct (Z.of_nat (length els) >? 0)%Z; [done | apply IH].
  - destruct (Manager.BYS !! lower ty) as [by_|]; [|done].
    destruct (find_elements by_ v d) as [els d1].
    destruct (Z.of_nat (length els) >? 0)%Z; [done | apply IH].
Qed.

(** X10: the case of a locator type does not matter: with every type
    put in lower case, [get_locator] returns or raises the same and
    leaves the same state. *)
Theorem get_locator_type_case_insensitive
    (locators : list locator) (ignore_implicit_wait : bool) (store : ThreadStore D) :
  Manager.get_locator (lower_type <$> locators) ignore_implicit_wait store
  = Manager.get_locator locators ignore_implicit_wait store.
Proof. unfold Manager.get_locator. by rewrite for_locators_lower_type. Qed.

Lemma for_locators_key_error (page_of : D -> string -> string -> list WebElement)
    (Hpage : shows_page page_of)
    (Hset : forall v d, implicit_wait (implicitly_wait v d) = v)
    (ty value : string) (more : locator) (post : list locator) :
  Manager.BYS !! lower ty = None ->
  forall pre,
    Forall (fun loc => recognized loc = true) pre ->
    forall first_locator d,
      (forall l, l ∈ pre -> matches (page_of d) l = false) ->
      exists d',
        Manager.for_locators (pre ++ ((ty, value) :: more) :: post) first_locator d
        = (Raise (KeyError (lower ty)), d')
        /\ (pre = [] -> first_locator = None -> d' = d)
        /\ (pre <> [] \/ first_locator <> None -> implicit_wait d' = Py.Int 0).
Proof.
  intros Hbad. induction 1 as [|loc pre Hloc _ IH]; intros first_locator d Hmiss.
  - cbn [app Manager.for_locators]. rewrite getitem_first_key, Hbad.
    destruct first_locator as [f|].
    + eexists. split_and!; [done | done | intros _; apply Hset].
    + exists d. split_and!; [done | done | intros [|]; done].
  - destruct loc as [|[ty' v'] tl]; [discriminate|].
    pose proof (Hmiss _ (list_elem_of_here _ _)) as Hm.
    simpl in Hloc. apply bool_decide_eq_true in Hloc as [by_ Hby].
    unfold matches in Hm. simpl in Hm. rewrite Hby in Hm. simpl in Hm.
    cbn [app Manager.for_locators]. rewrite getitem_first_key, Hby.
    assert (Hgo : forall first0 d0,
               page_of d0 = page_of d ->
               exists d',
                 (let '(elements, d1) := find_elements by_ v' d0 in
                  if (Z.of_nat (length elements) >? 0)%Z
                  then (Ok (Some (by_, v'), Some first0), d1)
                  else Manager.for_locators (pre ++ ((ty, value) :: more) :: post)
                         (Some first0) d1)
                 = (Raise (KeyError (lower ty)), d')
                 /\ implicit_wait d' = Py.Int 0).
    { intros first0 d0 Hd0.
      destruct (find_elements_page page_of Hpage by_ v' d0) as (d1 & -> & Hd1).
      rewrite Hd0. destruct (page_of d by_ v'); [|discriminate]. simpl.
      destruct (IH (Some first0) d1) as (d' & -> & _ & Hwait).
      - intros l Hl. rewrite Hd1, Hd0. apply Hmiss. by constructor.
      - exists d'. split; [done|]. apply Hwait. by right. }
    destruct first_locator as [f|].
    + destruct (Hgo f (implicitly_wait (Int 0) d)) as (d' & -> & Hwait); [apply Hpage|].
      exists d'. by split_and!.
    + destruct (Hgo (by_, v') d eq_refl) as (d' & -> & Hwait).
      exists d'. by split_and!.
Qed.

(** X11: when the search reaches a locator whose type [BYS] does not
    have, every locator before it being recognized and matching
    nothing, [get_locator] raises KeyError for the type in lower case.
    Unless that locator is the first and [ignore_implicit_wait] is off,
    in which case nothing has been touched, the implicit wait of the
    driver is left at 0 and is not set back to the timeout. *)
Theorem get_locator_key_error_leaves_wait
    (page_of : D -> string -> string -> list WebElement)
    (pre post : list locator) (ty value : string) (more : locator)
    (ignore_implicit_wait : bool) (store : ThreadStore D) :
  shows_page page_of ->
  (forall v d, implicit_wait (implicitly_wait v d) = v) ->
  Manager.BYS !! lower ty = None ->
  Forall (fun loc => recognized loc = true) pre ->
  (forall l, l ∈ pre -> matches (page_of (driver store)) l = false) ->
  let outcome :=
    Manager.get_locator (pre ++ ((ty, value) :: more) :: post) ignore_implicit_wait store in
  fst outcome = Raise (KeyError (lower ty))
  /\ (pre <> [] \/ ignore_implicit_wait = true ->
      implicit_wait (driver (snd outcome)) = Py.Int 0)
  /\ (pre = [] -> ignore_implicit_wait = false -> snd outcome = store).
Proof.
  intros Hpage Hset Hbad Hrec Hmiss outcome. subst outcome.
  unfold Manager.get_locator.
  set (d0 := if ignore_implicit_wait
             then implicitly_wait (Int 0) (_get_driver store) else _get_driver store).
  assert (Hd0 : page_of d0 = page_of (driver store)).
  { subst d0. destruct ignore_implicit_wait; [apply Hpage | done]. }
  destruct (for_locators_key_error page_of Hpage Hset ty value more post Hbad pre Hrec
              None d0) as (d' & -> & Hsame & Hwait).
  { intros l Hl. rewrite Hd0. by apply Hmiss. }
  split_and!; [done | |].
  - intros [Hpre | ->]; simpl.
    + apply Hwait. by left.
    + destruct pre as [|p pre']; [|apply Hwait; by left].
      rewrite (Hsame eq_refl eq_refl). subst d0. apply Hset.
  - intros -> ->. simpl. rewrite (Hsame eq_refl eq_refl). subst d0.
    by destruct store.
Qed.

End GetLocatorAnyList.

(** ** [WaitForManager]: conditions, empty lists, errors *)

Section WaitForEdges.
Context {D : Type} `{WebDriver D}.

(** X12: [wait_for] reads the condition without regard to case: it does
    with a condition what it does with the condition in lower case. *)
Theorem wait_for_condition_case_insensitive
    (fuel : nat) (condition : string) (locators : list locator) (wait_timeout : Z)
    (store : ThreadStore D) :
  WaitForManager.wait_for fuel condition locators wait_timeout store
  = WaitForManager.wait_for fuel (lower condition) locators wait_timeout store.
Proof. unfold WaitForManager.wait_for. by rewrite lower_idempotent. Qed.

(** X13: the negative conditions are the positive ones with "not" in
    front, and putting "not" in front of a condition does not change the
    expected condition that is tested: presence for "present",
    visibility for "visible", clickability for "clickable". *)
Theorem negative_conditions_mirror_positive (loc : string * string) :
  WaitForManager.NEGATIVE_CONDS = (fun c => "not" ++ c) <$> WaitForManager.POSITIVE_CONDS
  /\ (forall c,
        WaitForManager._get_until_cond ("not" ++ c) loc
        = WaitForManager._get_until_cond c loc)
  /\ WaitForManager._get_until_cond "present" loc = Some (presence_of_element_located loc)
  /\ WaitForManager._get_until_cond "visible" loc = Some (visibility_of_element_located loc)
  /\ WaitForManager._get_until_cond "clickable" loc = Some (element_to_be_clickable loc).
Proof. destruct loc as [by_ v]. by repeat split. Qed.

(** X14: on an empty list of locators a positive condition fails at
    once with the TypeError of [get_locator], and a negative condition
    returns at once with nothing touched. *)
Theorem wait_for_empty_list
    (fuel : nat) (condition : string) (wait_timeout : Z) (store : ThreadStore D) :
  (lower condition ∈ WaitForManager.POSITIVE_CONDS ->
   fst <$> WaitForManager.wait_for (S fuel) condition [] wait_timeout store
   = Some (Raise TypeError))
  /\ (lower condition ∈ WaitForManager.NEGATIVE_CONDS ->
      WaitForManager.wait_for fuel condition [] wait_timeout store = Some (Ok tt, store)).
Proof.
  split.
  - intros Hpos. unfold WaitForManager.wait_for.
    by rewrite (proj2 (mem_elem_of _ _) Hpos).
  - intros Hneg. unfold WaitForManager.wait_for.
    destruct (negative_until_cond (lower condition) ("", "") Hneg) as [-> _].
    by rewrite (proj2 (mem_elem_of _ _) Hneg).
Qed.

Lemma positive_pass_ok (condition : string) (locators : list locator)
    (wait_timeout : Z) (s : ThreadStore D) :
  condition ∈ WaitForManager.POSITIVE_CONDS ->
  locators <> [] ->
  Forall (fun loc => recognized loc = true) locators ->
  exists met s',
    WaitForManager.positive_pass condition locators wait_timeout s = (Ok met, s').
Proof.
  intros Hpos Hne Hrec. unfold WaitForManager.positive_pass.
  destruct (get_locator_outcome locators true s Hne Hrec) as [[t Ht]|[msg Hmsg]];
    destruct (Manager.get_locator locators true s) as [r s1]; simpl in *; subst r.
  - destruct (positive_until_cond condition t Hpos) as [c ->].
    destruct (until wait_timeout c (driver s1)) as [e d]. by eexists _, _.
  - by eexists _, _.
Qed.

Lemma while_true_raises (condition : string) (locators : list locator)
    (wait_timeout start_time : Z) :
  condition ∈ WaitForManager.POSITIVE_CONDS ->
  locators <> [] ->
  Forall (fun loc => recognized loc = true) locators ->
  forall fuel s e s',
    WaitForManager.while_true fuel condition locators wait_timeout start_time s
    = Some (Raise e, s') ->
    e = NoSuchElementException (timeout_message condition)
    /\ time (driver s') - start_time > wait_timeout.
Proof.
  intros Hpos Hne Hrec. induction fuel as [|fuel IH]; intros s e s' Hrun; [discriminate|].
  cbn [WaitForManager.while_true] in Hrun.
  destruct (positive_pass_ok condition locators wait_timeout s Hpos Hne Hrec)
    as (met & s1 & Hpass).
  rewrite Hpass in Hrun. destruct met; [discriminate|].
  destruct (Z.gtb_spec (time (driver s1) - start_time) wait_timeout) as [Hgt|Hle].
  - injection Hrun as <- <-. split; [done | lia].
  - by apply (IH s1).
Qed.

(** X15: for a positive condition and a non-empty list of recognized
    locators, the only error [wait_for] raises is the
    NoSuchElementException with the timeout message, and it does not
    raise it early: when it does, more than [wait_timeout] has elapsed
    on the clock since the call. *)
Theorem wait_for_no_early_timeout
    (fuel : nat) (condition : string) (locators : list locator) (wait_timeout : Z)
    (store store' : ThreadStore D) (e : exn) :
  lower condition ∈ WaitForManager.POSITIVE_CONDS ->
  locators <> [] ->
  Forall (fun loc => recognized loc = true) locators ->
  WaitForManager.wait_for fuel condition locators wait_timeout store
  = Some (Raise e, store') ->
  e = NoSuchElementException (timeout_message (lower condition))
  /\ time (driver store') - time (driver store) > wait_timeout.
Proof.
  intros Hpos Hne Hrec. unfold WaitForManager.wait_for.
  rewrite (proj2 (mem_elem_of _ _) Hpos). unfold WaitForManager._wait_for_positive.
  by apply while_true_raises.
Qed.

(** X16: a positive wait that reaches a locator of a type [BYS] does not
    have, the locators before it recognized and matching nothing, ends
    in its first pass with KeyError, and leaves the implicit wait of the
    driver at 0. *)
Theorem wait_for_positive_key_error
    (page_of : D -> string -> string -> list WebElement)
    (fuel : nat) (condition : string) (pre post : list locator)
    (ty value : string) (more : locator) (wait_timeout : Z) (store : ThreadStore D) :
  shows_page page_of ->
  (forall v d, implicit_wait (implicitly_wait v d) = v) ->
  lower condition ∈ WaitForManager.POSITIVE_CONDS ->
  Manager.BYS !! lower ty = None ->
  Forall (fun loc => recognized loc = true) pre ->
  (forall l, l ∈ pre -> matches (page_of (driver store)) l = false) ->
  exists store',
    WaitForManager.wait_for (S fuel) condition (pre ++ ((ty, value) :: more) :: post)
      wait_timeout store
    = Some (Raise (KeyError (lower ty)), store')
    /\ implicit_wait (driver store') = Py.Int 0.
Proof.
  intros Hpage Hset Hpos Hbad Hrec Hmiss. unfold WaitForManager.wait_for.
  rewrite (proj2 (mem_elem_of _ _) Hpos).
  unfold WaitForManager._wait_for_positive. cbn [WaitForManager.while_true].
  unfold WaitForManager.positive_pass, Manager.get_locator.
  destruct (for_locators_key_error page_of Hpage Hset ty value more post Hbad pre Hrec
              None (implicitly_wait (Int 0) (_get_driver store)))
    as (d' & -> & Hsame & Hwait).
  { intros l Hl. destruct Hpage as (_ & _ & Himp). rewrite Himp. by apply Hmiss. }
  eexists. split; [done|]. simpl.
  destruct pre as [|p pre']; [|apply Hwait; by left].
  rewrite (Hsame eq_refl eq_refl). apply Hset.
Qed.

Lemma probe_implicit_wait (store : ThreadStore D) (locators : list locator) :
  (forall v d, implicit_wait (implicitly_wait v d) = v) ->
  locators <> [] ->
  Forall (fun loc => recognized loc = true) locators ->
  implicit_wait (driver (probe store locators)) = _get_timeout store.
Proof.
  intros Hset Hne Hrec. unfold probe. simpl.
  destruct (exists_last Hne) as (init & last & ->).
  rewrite fold_left_app. simpl.
  apply Forall_app in Hrec as [_ Hlast]. apply Forall_cons in Hlast as [Hlast _].
  destruct (recognized_as_tuple _ Hlast) as [[by_ v] Ht].
  unfold probe_one at 1. rewrite Ht. apply Hset.
Qed.

(** X17: for a negative condition and a non-empty list of recognized
    locators none of which matches an element, [wait_for] returns
    normally and leaves the implicit wait of the driver at the value
    [_get_timeout] gives for the stored timeout. *)
Theorem wait_for_negative_nothing_present
    (page_of : D -> string -> string -> list WebElement)
    (fuel : nat) (condition : string) (locators : list locator) (wait_timeout : Z)
    (store : ThreadStore D) :
  shows_page page_of ->
  (forall v d, implicit_wait (implicitly_wait v d) = v) ->
  lower condition ∈ WaitForManager.NEGATIVE_CONDS ->
  locators <> [] ->
  Forall (fun loc => recognized loc = true) locators ->
  (forall l, l ∈ locators -> matches (page_of (driver store)) l = false) ->
  exists store',
    WaitForManager.wait_for fuel condition locators wait_timeout store
    = Some (Ok tt, store')
    /\ implicit_wait (driver store') = _get_timeout store.
Proof.
  intros Hpage Hset Hneg Hne Hrec Hmiss. unfold WaitForManager.wait_for.
  destruct (negative_until_cond (lower condition) ("", "") Hneg) as [-> _].
  rewrite (proj2 (mem_elem_of _ _) Hneg).
  unfold WaitForManager._wait_for_negative.
  rewrite (negative_for_locators page_of locators Hpage Hrec [] store).
  replace (List.filter (matches (page_of (driver store))) locators) with (@nil locator).
  - exists (probe store locators). split; [done|]. by apply probe_implicit_wait.
  - symmetry. clear -Hmiss. induction locators as [|loc rest IH]; [done|].
    simpl. rewrite (Hmiss loc) by constructor.
    apply IH. intros l Hl. apply Hmiss. by constructor.
Qed.

End WaitForEdges.

(** ** [DialogsManager]: reading the queues, answers *)

Section DialogAnswers.
Import JS DialogsManager DialogsAnswers.

Lemma read_none (get_next : window -> result Py.value * window) (w : window) :
  get_next w = (Ok Py.None_, w) ->
  forall k, read get_next k w = (replicate k (Ok Py.None_), w).
Proof.
  intros Hget. induction k as [|k IH]; [done|].
  cbn [read replicate]. by rewrite Hget, IH.
Qed.

Lemma set_confirms_twice (w : window) (q q' : list JS.value) :
  set_confirms (set_confirms w q) q' = set_confirms w q'.
Proof. done. Qed.

Lemma read_confirms (q : list JS.value) :
  forall w k,
    __webdriverConfirms w = Some q ->
    read get_next_confirm (length q + k) w
    = ((((fun m => Ok (to_python m)) <$> q) ++ replicate k (Ok Py.None_))%list,
       set_confirms w []).
Proof.
  induction q as [|m q IH]; intros w k Hq.
  - cbn [length Nat.add fmap list_fmap app].
    assert (Hw : set_confirms w [] = w) by (destruct w; simpl in *; by subst).
    rewrite Hw. apply read_none. unfold get_next_confirm. rewrite Hq. simpl.
    by rewrite Hw.
  - cbn [length Nat.add read]. unfold get_next_confirm at 1. rewrite Hq. cbn [shift].
    rewrite (IH (set_confirms w q) k eq_refl). by rewrite set_confirms_twice.
Qed.

Lemma read_prompts (q : list JS.value) :
  forall w k,
    __webdriverPrompts w = Some q ->
    read get_next_prompt (length q + k) w
    = ((((fun m => Ok (to_python m)) <$> q) ++ replicate k (Ok Py.None_))%list,
       set_prompts w []).
Proof.
  induction q as [|m q IH]; intros w k Hq.
  - cbn [length Nat.add fmap list_fmap app].
    assert (Hw : set_prompts w [] = w) by (destruct w; simpl in *; by subst).
    rewrite Hw. apply read_none. unfold get_next_prompt. rewrite Hq. simpl.
    by rewrite Hw.
  - cbn [length Nat.add read]. unfold get_next_prompt at 1. rewrite Hq. cbn [shift].
    by rewrite (IH (set_prompts w q) k eq_refl).
Qed.

Lemma get_next_alert_read (w : window) (t : JS.value) (q : list JS.value) :
  __webdriverAlerts w = Some (t :: q) ->
  get_next_alert w = (alert_read t, set_alerts w q).
Proof.
  intros Hq. unfold get_next_alert, alert_read. rewrite Hq. cbn [shift].
  destruct (truthy t); [|done]. by destruct t.
Qed.

Lemma read_alerts (q : list JS.value) :
  forall w k,
    __webdriverAlerts w = Some q ->
    read get_next_alert (length q + k) w
    = (((alert_read <$> q) ++ replicate k (Ok Py.None_))%list, set_alerts w []).
Proof.
  induction q as [|t q IH]; intros w k Hq.
  - cbn [length Nat.add fmap list_fmap app].
    assert (Hw : set_alerts w [] = w) by (destruct w; simpl in *; by subst).
    rewrite Hw. apply read_none. unfold get_next_alert. rewrite Hq. simpl.
    by rewrite Hw.
  - cbn [length Nat.add read]. rewrite (get_next_alert_read w t q Hq).
    by rewrite (IH (set_alerts w q) k eq_refl).
Qed.

(** X18: confirms and prompts come back as they went in.  After
    [replace_dialogs] on a fresh page and any dialogs of the page, as
    many calls of [get_next_confirm] as confirms were raised return
    their messages, oldest first, and every call after that returns
    [None]; the same for [get_next_prompt] and the recorded prompts. *)
Theorem confirms_and_prompts_read_back (xs : list dialog) (k : nat) :
  let w := raise_dialogs xs (snd (replace_dialogs {| is_active := true |} fresh)) in
  fst (read get_next_confirm (length (confirms_of xs) + k) w)
  = (((fun m => Ok (to_python m)) <$> confirms_of xs) ++ replicate k (Ok Py.None_))%list
  /\ fst (read get_next_prompt (length (prompts_of xs) + k) w)
     = (((fun m => Ok (to_python m)) <$> prompts_of xs) ++ replicate k (Ok Py.None_))%list.
Proof.
  intros w.
  destruct (raise_dialogs_queues xs (snd (replace_dialogs {| is_active := true |} fresh))
              [] [] []) as (_ & _ & _ & _ & Hc & Hp); [by repeat split|].
  rewrite !app_nil_l in *. fold w in Hc, Hp. split.
  - by rewrite (read_confirms _ w k Hc).
  - by rewrite (read_prompts _ w k Hp).
Qed.

(** X19: alerts come back oldest first, each read removing one entry
    whatever comes of it: a text is returned with its line feeds turned
    into spaces, an entry that is falsy (an empty text, [undefined], 0)
    as it is, and for any other entry, which has no [replace], the call
    raises JavascriptException; once the queue is used up every call
    returns [None]. *)
Theorem alerts_read_back (xs : list dialog) (k : nat) :
  let w := raise_dialogs xs (snd (replace_dialogs {| is_active := true |} fresh)) in
  read get_next_alert (length (alerts_of xs) + k) w
  = (((alert_read <$> alerts_of xs) ++ replicate k (Ok Py.None_))%list, set_alerts w [])
  /\ (forall s, alert_read (Str s) = Ok (Py.Str (replace_newlines s)))
  /\ alert_read undefined = Ok Py.None_
  /\ alert_read (Num 0) = Ok (Py.Int 0)
  /\ (forall n, n <> 0 ->
        alert_read (Num n) = Raise (JavascriptException "t.replace is not a function"))
  /\ alert_read (Bool true) = Raise (JavascriptException "t.replace is not a function").
Proof.
  intros w.
  destruct (raise_dialogs_queues xs (snd (replace_dialogs {| is_active := true |} fresh))
              [] [] []) as (_ & _ & _ & Ha & _ & _); [by repeat split|].
  rewrite !app_nil_l in *. fold w in Ha. split_and!.
  - by apply read_alerts.
  - intros s. unfold alert_read. by destruct s.
  - done.
  - done.
  - intros n Hn. unfold alert_read. simpl.
    by destruct (Z.eqb_spec n 0).
  - done.
Qed.

(** X20: the state set by [set_next_confirm_state] answers one confirm
    only.  The next confirm of the page gets [true] when the value is
    "#ok" in any case and [false] otherwise, the confirm after it gets
    [true] again, and both messages are recorded. *)
Theorem next_confirm_state_is_used_once
    (value : string) (w : window) (q : list JS.value) (m1 m2 : JS.value) :
  __webdriverConfirms w = Some q ->
  let w1 := snd (set_next_confirm_state value w) in
  let '(r1, w2) := replaced_confirm m1 w1 in
  let '(r2, w3) := replaced_confirm m2 w2 in
  r1 = Some (Bool (String.eqb (lower value) "#ok"))
  /\ r2 = Some (Bool true)
  /\ __webdriverConfirms w3 = Some (q ++ [m1; m2])%list.
Proof.
  intros Hq. unfold set_next_confirm_state, replaced_confirm. simpl. rewrite Hq. simpl.
  split_and!; [by destruct (String.eqb _ _) | done |].
  by rewrite <- app_assoc.
Qed.

(** X21: on a page where [replace_dialogs] has just run, a confirm of
    the page is answered [true] from the first on, while the first
    prompt is answered [undefined], the script having set
    [__webdriverNextPrompts] and not [__webdriverNextPrompt], and only
    the prompts after it [true]. *)
Theorem first_prompt_is_unanswered (m1 d1 m2 d2 c1 : JS.value) :
  let w := snd (replace_dialogs {| is_active := true |} fresh) in
  fst (replaced_confirm c1 w) = Some (Bool true)
  /\ fst (replaced_prompt m1 d1 w) = Some undefined
  /\ fst (replaced_prompt m2 d2 (snd (replaced_prompt m1 d1 w))) = Some (Bool true).
Proof. by repeat split. Qed.

End DialogAnswers.

(** ** Flow markers *)

Section FlowMarkerProperties.
Import FlowMarkers.

(** X22: [add_flow_markers] needs the keys "enter" and "exit" and raises
    KeyError for the first that is missing.  With both there, it puts
    the start marker at the end of the "enter" handlers and the exit
    marker at the end of the "exit" handlers, keeping the handlers that
    were there and every other key. *)
Theorem add_flow_markers_appends (handlers : gmap string (list handler)) :
  (forall enter exit_,
      handlers !! "enter" = Some enter ->
      handlers !! "exit" = Some exit_ ->
      exists hs,
        add_flow_markers handlers = Ok hs
        /\ hs !! "enter" = Some (enter ++ [send_start_flow_marker])%list
        /\ hs !! "exit" = Some (exit_ ++ [send_exit_flow_marker])%list
        /\ (forall k, k <> "enter" -> k <> "exit" -> hs !! k = handlers !! k))
  /\ (handlers !! "enter" = None -> add_flow_markers handlers = Raise (KeyError "enter"))
  /\ (is_Some (handlers !! "enter") -> handlers !! "exit" = None ->
      add_flow_markers handlers = Raise (KeyError "exit")).
Proof.
  unfold add_flow_markers. split_and!.
  - intros enter exit_ He Hx. rewrite He.
    rewrite lookup_insert_ne by done. rewrite Hx.
    eexists. split_and!; [done | | | ].
    + rewrite lookup_insert_ne by done. apply lookup_insert_eq.
    + apply lookup_insert_eq.
    + intros k Hke Hkx. by rewrite !lookup_insert_ne.
  - by intros ->.
  - intros [enter ->] Hx. by rewrite lookup_insert_ne, Hx.
Qed.

(** X23: [add_flow_markers] does not look for markers that are already
    registered: run on its own result it registers both a second
    time. *)
Theorem add_flow_markers_twice
    (handlers hs : gmap string (list handler)) (enter exit_ : list handler) :
  handlers !! "enter" = Some enter ->
  handlers !! "exit" = Some exit_ ->
  add_flow_markers handlers = Ok hs ->
  exists hs2,
    add_flow_markers hs = Ok hs2
    /\ hs2 !! "enter" = Some (enter ++ [send_start_flow_marker; send_start_flow_marker])%list
    /\ hs2 !! "exit" = Some (exit_ ++ [send_exit_flow_marker; send_exit_flow_marker])%list.
Proof.
  intros He Hx Hrun. unfold add_flow_markers in Hrun.
  rewrite He in Hrun. rewrite lookup_insert_ne in Hrun by done. rewrite Hx in Hrun.
  injection Hrun as <-. unfold add_flow_markers.
  rewrite lookup_insert_ne by done. rewrite lookup_insert_eq.
  rewrite lookup_insert_ne by done. rewrite lookup_insert_eq.
  eexists. split_and!; [done | | ].
  - rewrite lookup_insert_ne by done. rewrite lookup_insert_eq.
    by rewrite <- app_assoc.
  - rewrite lookup_insert_eq. by rewrite <- app_assoc.
Qed.

(** X24: the start marker is the script "/* FLOW_MARKER test-case-start
    */" with the test case name, with the scenario name for suite name,
    or the suite name when there is no scenario name, and with the
    iteration number exactly when there are data sources; the exit
    marker is "/* FLOW_MARKER test-case-stop */" with the status and the
    message and nothing else. *)
Theorem flow_marker_calls (s : store) :
  script (_send_start_flow_marker s) = "/* FLOW_MARKER test-case-start */"
  /\ params (_send_start_flow_marker s) !! "testCaseName" = Some (test_case s)
  /\ params (_send_start_flow_marker s) !! "testSuiteName"
     = Some (if truthy (scenario_name s) then scenario_name s else test_suite s)
  /\ params (_send_start_flow_marker s) !! "testDataIterationId"
     = (if truthy (data_sources s) then Some (Py.Int (iteration s)) else None)
  /\ dom (params (_send_start_flow_marker s))
     ⊆ {["testCaseName"; "testSuiteName"; "testDataIterationId"]}
  /\ script (_send_exit_flow_marker s) = "/* FLOW_MARKER test-case-stop */"
  /\ params (_send_exit_flow_marker s)
     = <["status" := status s]> (<["message" := message s]> ∅).
Proof.
  unfold _send_start_flow_marker, _send_exit_flow_marker, _send_marker, or_. simpl.
  split_and!; try done.
  - destruct (truthy (data_sources s)); by simplify_map_eq.
  - destruct (truthy (data_sources s)); by simplify_map_eq.
  - destruct (truthy (data_sources s)); by simplify_map_eq.
  - destruct (truthy (data_sources s)); rewrite ?dom_insert_L, dom_empty_L;
      intros x; rewrite !elem_of_union, !elem_of_singleton, elem_of_empty; tauto.
Qed.

End FlowMarkerProperties.

(** ** The further properties on the example browser *)

(** X1 at work: with no name, the switch goes to "w1", the last window. *)
Lemma switch_without_name_witness :
  WindowManager.windows (snd (WindowManager.switch None Examples.window_manager))
  = WindowManager.windows Examples.window_manager
  /\ goes_to_window None "w1" Examples.browser
       (WindowManager.switch None Examples.window_manager).
Proof.
  exact (proj1 (switch_without_name None Examples.window_manager (or_introl eq_refl))
           "w1" eq_refl).
Defined.

(** X3 at work: "popup" is handed to the driver, which knows no such
    window. *)
Lemma switch_by_name_witness :
  let outcome := WindowManager.switch (Some "popup") Examples.window_manager in
  WindowManager.windows (snd outcome) = WindowManager.windows Examples.window_manager
  /\ goes_to_window (Some "popup") "popup" Examples.browser outcome.
Proof.
  apply (switch_by_name "popup" Examples.window_manager);
    [discriminate | reflexivity | reflexivity].
Defined.

(** X4 at work: the message for "popup". *)
Lemma switch_no_such_window_message_witness :
  "Invalid Window ID: popup" = "Invalid Window ID: " ++ str_of_opt (Some "popup").
Proof.
  exact (switch_no_such_window_message (Some "popup") Examples.window_manager
           "Invalid Window ID: popup" eq_refl).
Defined.

(** X5 at work: "1" with two windows open is within the handles. *)
Lemma switch_numeric_never_switches_witness :
  exists i,
    Py.int "1" = Some i
    /\ 0 <= i
    /\ WindowManager.switch (Some "1") Examples.window_manager
       = (if (i <? Z.of_nat (length (window_handles Examples.browser)))%Z
          then Raise (NoSuchWindowException ("Invalid Window ID: " ++ "1"))
          else Raise IndexError,
          Examples.window_manager).
Proof.
  apply (switch_numeric_never_switches "1" Examples.window_manager);
    [reflexivity | vm_compute; lia].
Defined.

(** X6 at work: "win_ser_1" with no window open. *)
Lemma win_ser_without_windows_witness :
  WindowManager.switch (Some "win_ser_1") MoreExamples.manager_without_windows
  = (Raise IndexError, MoreExamples.manager_without_windows).
Proof.
  apply win_ser_without_windows; [reflexivity | discriminate | reflexivity | reflexivity].
Defined.

(** X8 at work: the tuple returned for the fallback locators. *)
Lemma get_locator_sound_witness :
  exists loc,
    loc ∈ Examples.fallback_locators
    /\ as_tuple loc = Some (By.CSS_SELECTOR, "b")
    /\ matches (Mock.elements_at (driver Examples.store)) loc = true
    /\ fst (By.CSS_SELECTOR, "b") ∈ strategies.
Proof.
  apply (get_locator_sound Mock.elements_at Examples.fallback_locators false
           Examples.store (By.CSS_SELECTOR, "b") mock_shows_page).
  reflexivity.
Defined.

(** X11 at work: [{'id': 'zz'}] finds nothing and [{'foo': 'x'}] raises
    KeyError with the implicit wait at 0. *)
Lemma get_locator_key_error_leaves_wait_witness :
  let outcome :=
    Manager.get_locator ([[("id", "zz")]] ++ [("foo", "x")] :: [])%list false
      Examples.store in
  fst outcome = Raise (KeyError (lower "foo"))
  /\ ([[("id", "zz")]] <> [] \/ false = true ->
      implicit_wait (driver (snd outcome)) = Py.Int 0)
  /\ ([[("id", "zz")]] = [] -> false = false -> snd outcome = Examples.store).
Proof.
  apply (get_locator_key_error_leaves_wait Mock.elements_at).
  - apply mock_shows_page.
  - intros v d. reflexivity.
  - reflexivity.
  - repeat constructor.
  - intros l Hl. apply list_elem_of_singleton in Hl. by subst.
Defined.

(** X15 at work: the wait for "visible" on the hidden element raises
    after the clock has gone from 100 past 110. *)
Lemma wait_for_no_early_timeout_witness :
  exists e store',
    WaitForManager.wait_for 100 "visible" Examples.hidden_then_visible 10 Examples.store
    = Some (Raise e, store')
    /\ e = NoSuchElementException (timeout_message (lower "visible"))
    /\ time (driver store') - time (driver Examples.store) > 10.
Proof.
  eexists _, _. split; [reflexivity|].
  eapply (wait_for_no_early_timeout 100 "visible" Examples.hidden_then_visible 10
            Examples.store).
  - vm_compute. right. by left.
  - discriminate.
  - repeat constructor.
  - reflexivity.
Defined.

(** X16 at work: a wait for "present" on the same two locators. *)
Lemma wait_for_positive_key_error_witness :
  exists store',
    WaitForManager.wait_for 1 "present" ([[("id", "zz")]] ++ [("foo", "x")] :: [])%list
      10 Examples.store
    = Some (Raise (KeyError (lower "foo")), store')
    /\ implicit_wait (driver store') = Py.Int 0.
Proof.
  apply (wait_for_positive_key_error Mock.elements_at).
  - apply mock_shows_page.
  - intros v d. reflexivity.
  - vm_compute. by left.
  - reflexivity.
  - repeat constructor.
  - intros l Hl. apply list_elem_of_singleton in Hl. by subst.
Defined.

(** X17 at work: "notpresent" for an element that is not there. *)
Lemma wait_for_negative_nothing_present_witness :
  exists store',
    WaitForManager.wait_for 0 "notpresent" [[("id", "zz")]] 10 Examples.store
    = Some (Ok tt, store')
    /\ implicit_wait (driver store') = _get_timeout Examples.store.
Proof.
  apply (wait_for_negative_nothing_present Mock.elements_at).
  - apply mock_shows_page.
  - intros v d. reflexivity.
  - vm_compute. by left.
  - discriminate.
  - repeat constructor.
  - intros l Hl. apply list_elem_of_singleton in Hl. by subst.
Defined.

(** X20 at work: "#Cancel" answers the next confirm with [false], the
    one after it is answered [true]. *)
Lemma next_confirm_state_is_used_once_witness :
  let w1 := snd (DialogsAnswers.set_next_confirm_state "#Cancel"
                   MoreExamples.replaced_page) in
  let '(r1, w2) := DialogsManager.replaced_confirm (JS.Str "sure?") w1 in
  let '(r2, w3) := DialogsManager.replaced_confirm (JS.Str "really?") w2 in
  r1 = Some (JS.Bool (String.eqb (lower "#Cancel") "#ok"))
  /\ r2 = Some (JS.Bool true)
  /\ JS.__webdriverConfirms w3 = Some ([] ++ [JS.Str "sure?"; JS.Str "really?"])%list.
Proof.
  apply (next_confirm_state_is_used_once "#Cancel" MoreExamples.replaced_page []).
  reflexivity.
Defined.

(** X23 at work: two runs from the example handlers. *)
Lemma add_flow_markers_twice_witness :
  exists hs2,
    FlowMarkers.add_flow_markers
      (<["exit" := [FlowMarkers.send_exit_flow_marker]]>
         (<["enter" := [FlowMarkers.other_handler "log"; FlowMarkers.send_start_flow_marker]]>
            MoreExamples.handlers))
    = Ok hs2
    /\ hs2 !! "enter"
       = Some ([FlowMarkers.other_handler "log"]
               ++ [FlowMarkers.send_start_flow_marker; FlowMarkers.send_start_flow_marker])%list
    /\ hs2 !! "exit"
       = Some ([] ++ [FlowMarkers.send_exit_flow_marker; FlowMarkers.send_exit_flow_marker])%list.
Proof.
  apply (add_flow_markers_twice MoreExamples.handlers); reflexivity.
Defined.
